(** * Hardware Lab Management System: inventory checkout and check-in

    A shallow embedding of the hardware checkout / check-in core of the
    repository:

    - the MongoDB documents of [hardwareDB] and [projectsDB] and the two
      transactions "Hardware Checkout" and "Hardware Check-in" of
      [docs/database-schema.md];
    - the form handlers [handleCheckout] and [handleCheckin] of
      [frontend/src/components/HardwareInventoryPage.js];
    - the service layer of [frontend/src/services/hardwareService.js] over
      the axios instance of [frontend/src/services/api.js].
    - the authentication and the project service, the session [App] keeps
      in [localStorage], and the handlers of [MainPortal.js], [LoginPage.js]
      and [ProjectPage.js].

    Conventions.  A JavaScript [Number] that holds a quantity or a counter is
    an integer of [Z]; the rounding of doubles above 2^53 is outside the
    model.  A [Date] is the integer number of milliseconds it holds, and the
    calls of [new Date()] of one transaction read the same instant.  A
    collection with a unique index is a [gmap] from the indexed key to the
    document.  A failure of the database or of the session itself is outside
    the model: a transaction aborts only where its code throws. *)

From Stdlib Require Import ZArith Lia Ascii String.
From stdpp Require Import gmap strings list fin_maps pretty.

Open Scope string_scope.
Open Scope Z_scope.

(** ** Documents *)

(** An element of [projectsDB.hardware_checkouts]. *)
Record CheckoutRecord := mkCheckoutRecord {
  hw_name : string;
  quantity : Z;
  checked_out_at : Z;
  checked_out_by : string
}.

(** A document of [projectsDB]; the collection is keyed by [_id]. *)
Module Project.
Record doc := mk {
  name : string;
  description : string;
  owner : string;
  members : list string;
  hardware_checkouts : list CheckoutRecord;
  created_at : Z;
  updated_at : Z
}.

Definition set_hardware_checkouts (l : list CheckoutRecord) (p : doc) : doc :=
  mk (name p) (description p) (owner p) (members p) l (created_at p) (updated_at p).

Definition set_updated_at (t : Z) (p : doc) : doc :=
  mk (name p) (description p) (owner p) (members p) (hardware_checkouts p)
     (created_at p) t.
End Project.

(** A document of [hardwareDB]; the collection is keyed by its unique
    [hw_name]. *)
Module Hardware.
Record doc := mk {
  description : string;
  total_capacity : Z;
  available : Z;
  checked_out : Z;
  category : string;
  location : string;
  created_at : Z;
  updated_at : Z
}.

(** [$inc: { available: da, checked_out: dc }] *)
Definition inc (da dc : Z) (h : doc) : doc :=
  mk (description h) (total_capacity h) (available h + da) (checked_out h + dc)
     (category h) (location h) (created_at h) (updated_at h).

Definition set_updated_at (t : Z) (h : doc) : doc :=
  mk (description h) (total_capacity h) (available h) (checked_out h)
     (category h) (location h) (created_at h) t.

(** The validation rules of the schema for the two counters. *)
Definition bounds (h : doc) : Prop :=
  0 <= checked_out h <= total_capacity h /\
  0 <= available h <= total_capacity h.

Definition balanced (h : doc) : Prop :=
  available h + checked_out h = total_capacity h.

Definition valid (h : doc) : Prop := bounds h /\ balanced h.
End Hardware.

(** The database [hardware_lab_system], restricted to the two collections the
    transactions touch. *)
Record DB := mkDB {
  hardwareDB : gmap string Hardware.doc;
  projectsDB : gmap string Project.doc
}.

(** ** Transactions *)

(** What a JavaScript [throw] carries in the code below. *)
Inductive exn :=
| Error (message : string)
| TypeError (message : string).

(** The body of a transaction reads and writes the session's view of the
    database and may throw. *)
Definition txn (A : Type) : Type := DB -> exn + (A * DB).

Definition ret {A} (a : A) : txn A := fun db => inr (a, db).

Definition throw {A} (e : exn) : txn A := fun _ => inl e.

Definition bind {A B} (m : txn A) (k : A -> txn B) : txn B :=
  fun db =>
    match m db with
    | inl e => inl e
    | inr (a, db') => k a db'
    end.

Notation "x <- m ;; k" := (bind m (fun x => k))
  (at level 100, m at next level, right associativity).
Notation "m ;;; k" := (bind m (fun _ => k))
  (at level 100, right associativity).

Inductive outcome :=
| Committed
| Aborted (e : exn).

(** [try { startTransaction(); body; commitTransaction() }
     catch (error) { abortTransaction(); throw error }]:
    an abort discards every write of the body. *)
Definition transaction (body : txn unit) (db : DB) : outcome * DB :=
  match body db with
  | inl e => (Aborted e, db)
  | inr (_, db') => (Committed, db')
  end.

(** [db.hardwareDB.findOne({ hw_name })]: the document, or [null]. *)
Definition findOne_hardware (hw : string) : txn (option Hardware.doc) :=
  fun db => inr (hardwareDB db !! hw, db).

(** [db.hardwareDB.updateOne({ hw_name }, update)]: no document matched,
    nothing written. *)
Definition updateOne_hardware (hw : string) (update : Hardware.doc -> Hardware.doc)
  : txn unit :=
  fun db => inr (tt, mkDB (alter update hw (hardwareDB db)) (projectsDB db)).

(** [db.projectsDB.updateOne(filter, update)], where [filter] is [_id] and a
    further condition on the document. *)
Definition updateOne_project (projectId : string) (cond : Project.doc -> bool)
    (update : Project.doc -> Project.doc) : txn unit :=
  fun db =>
    inr (tt, mkDB (hardwareDB db)
                  (alter (fun p => if cond p then update p else p) projectId
                         (projectsDB db))).

(** [$push: { hardware_checkouts: r }] *)
Definition push (r : CheckoutRecord) (p : Project.doc) : Project.doc :=
  Project.set_hardware_checkouts (Project.hardware_checkouts p ++ [r]) p.

(** The filter ["hardware_checkouts.hw_name": hw]: some element of the array
    has that name. *)
Definition has_checkout (hw : string) (p : Project.doc) : bool :=
  existsb (fun r => bool_decide (hw_name r = hw)) (Project.hardware_checkouts p).

(** [$inc: { "hardware_checkouts.$.quantity": d }]: the positional operator
    is the first element that matched the filter. *)
Fixpoint inc_first (hw : string) (d : Z) (l : list CheckoutRecord)
  : list CheckoutRecord :=
  match l with
  | [] => []
  | r :: l' =>
      if bool_decide (hw_name r = hw)
      then mkCheckoutRecord (hw_name r) (quantity r + d) (checked_out_at r)
                            (checked_out_by r) :: l'
      else r :: inc_first hw d l'
  end.

(** [$pull: { hardware_checkouts: { quantity: { $lte: 0 } } }] *)
Definition pull_lte_0 (l : list CheckoutRecord) : list CheckoutRecord :=
  List.filter (fun r => negb (quantity r <=? 0)) l.

(** *** Hardware Checkout (Atomic Operation)

    The schema shows the transaction on the hardware set ["Arduino Uno"];
    [hw] stands for that name.  [now] is what [new Date()] returns. *)
Definition checkout (hw projectId username : string) (requestedQty now : Z)
  : DB -> outcome * DB :=
  transaction (
    (* 1. Check hardware availability *)
    hardware <- findOne_hardware hw ;;
    match hardware with
    | None => throw (TypeError "Cannot read properties of null (reading 'available')")
    | Some h =>
        if Hardware.available h <? requestedQty
        then throw (Error "Insufficient hardware available")
        else
          (* 2. Update hardware availability *)
          updateOne_hardware hw
            (fun h => Hardware.set_updated_at now
                        (Hardware.inc (- requestedQty) requestedQty h)) ;;;
          (* 3. Add checkout record to project *)
          updateOne_project projectId (fun _ => true)
            (fun p => Project.set_updated_at now
                        (push (mkCheckoutRecord hw requestedQty now username) p)) ;;;
          ret tt
    end).

(** *** Hardware Check-in (Atomic Operation) *)
Definition check_in (hw projectId : string) (returnQty now : Z)
  : DB -> outcome * DB :=
  transaction (
    (* 1. Update hardware availability *)
    updateOne_hardware hw
      (fun h => Hardware.set_updated_at now
                  (Hardware.inc returnQty (- returnQty) h)) ;;;
    (* 2. Update project checkout record *)
    updateOne_project projectId (has_checkout hw)
      (fun p => Project.set_updated_at now
                  (Project.set_hardware_checkouts
                     (inc_first hw (- returnQty) (Project.hardware_checkouts p)) p)) ;;;
    (* 3. Remove checkout record if quantity is 0 *)
    updateOne_project projectId (fun _ => true)
      (fun p => Project.set_hardware_checkouts
                  (pull_lte_0 (Project.hardware_checkouts p)) p) ;;;
    ret tt).

(** The error of the availability check, [InsufficientAvailability] in the
    design's taxonomy. *)
Definition InsufficientAvailability : exn :=
  Error "Insufficient hardware available".

(** ** A small database to run the transactions on *)

(** The hardware set and the project of the schema's example documents. *)
Definition arduino (avail out : Z) : Hardware.doc :=
  Hardware.mk "Arduino Uno Rev3 microcontroller board" 50 avail out
              "Microcontroller" "Lab Room 201, Cabinet A" 1000 1000.

Definition iot (l : list CheckoutRecord) (t : Z) : Project.doc :=
  Project.mk "IoT Sensor Project" EmptyString "john_doe"
             ["john_doe"; "jane_smith"] l 900 t.

(** The hardware set as created, nothing checked out; project [p1] holds
    nothing. *)
Definition db0 : DB :=
  mkDB {[ "Arduino Uno" := arduino 50 0 ]} {[ "p1" := iot [] 900 ]}.

(** Project [p1] holds a record of zero units of another hardware set. *)
Definition db_stale : DB :=
  mkDB {[ "Arduino Uno" := arduino 45 5 ]}
       {[ "p1" := iot [mkCheckoutRecord "Arduino Uno" 5 1500 "john_doe";
                       mkCheckoutRecord "DHT22 Sensors" 0 1600 "jane_smith";
                       mkCheckoutRecord "Raspberry Pi" 4 1700 "john_doe"] 1700 ]}.

(** Project [p1] holds 10 units. *)
Definition db_held : DB :=
  mkDB {[ "Arduino Uno" := arduino 40 10 ]}
       {[ "p1" := iot [mkCheckoutRecord "Arduino Uno" 10 1500 "john_doe"] 1500 ]}.

(** Two hardware sets and two projects. *)
Definition db_two : DB :=
  mkDB {[ "Arduino Uno" := arduino 40 10;
          "Raspberry Pi" := Hardware.mk "Raspberry Pi 4" 20 16 4 "Microcontroller"
                                        "Lab Room 201, Cabinet B" 1000 1700 ]}
       {[ "p1" := iot [mkCheckoutRecord "Arduino Uno" 10 1500 "john_doe"] 1500;
          "p2" := Project.mk "Robot Arm" EmptyString "bob_wilson" ["bob_wilson"]
                             [mkCheckoutRecord "Raspberry Pi" 4 1700 "bob_wilson"]
                             950 1700 ]}.

(** Project [p1] has checked out twice, 5 and 3 units. *)
Definition db_twice : DB :=
  mkDB {[ "Arduino Uno" := arduino 42 8 ]}
       {[ "p1" := iot [mkCheckoutRecord "Arduino Uno" 5 2000 "john_doe";
                       mkCheckoutRecord "Arduino Uno" 3 3000 "jane_smith"]
                      3000 ]}.

(** Two units are left. *)
Definition db_last : DB :=
  mkDB {[ "Arduino Uno" := arduino 2 48 ]} {[ "p1" := iot [] 900 ]}.

(** The records of a ledger for one hardware set. *)
Definition checkouts_of (hw : string) (l : list CheckoutRecord)
  : list CheckoutRecord :=
  List.filter (fun r => bool_decide (hw_name r = hw)) l.

(** Every hardware set of the database is balanced, or valid. *)
Definition all_balanced (db : DB) : Prop :=
  forall hw h, hardwareDB db !! hw = Some h -> Hardware.balanced h.

Definition all_valid (db : DB) : Prop :=
  forall hw h, hardwareDB db !! hw = Some h -> Hardware.valid h.

(** One checkout of one unit of [hw] after the other, one per caller
    (project and user), and the number of them that commit. *)
Fixpoint reserve_each (hw : string) (now : Z) (callers : list (string * string))
    (db : DB) : nat * DB :=
  match callers with
  | [] => (O, db)
  | (projectId, username) :: rest =>
      let '(o, db1) := checkout hw projectId username 1 now db in
      let '(k, db2) := reserve_each hw now rest db1 in
      (match o with Committed => S k | Aborted _ => k end, db2)
  end.

(** ** What the two transactions write *)

(** The writes of a checkout that passed the availability check. *)
Definition checkout_writes (hw projectId username : string)
    (requestedQty now : Z) (db : DB) : DB :=
  mkDB
    (alter (fun h => Hardware.set_updated_at now
                       (Hardware.inc (- requestedQty) requestedQty h))
           hw (hardwareDB db))
    (alter (fun p => Project.set_updated_at now
                       (push (mkCheckoutRecord hw requestedQty now username) p))
           projectId (projectsDB db)).

(** What the second and third step of a check-in make of a project. *)
Definition check_in_ledger (hw : string) (returnQty now : Z) (p : Project.doc)
  : Project.doc :=
  let p1 :=
    if has_checkout hw p
    then Project.set_updated_at now
           (Project.set_hardware_checkouts
              (inc_first hw (- returnQty) (Project.hardware_checkouts p)) p)
    else p in
  Project.set_hardware_checkouts (pull_lte_0 (Project.hardware_checkouts p1)) p1.

Definition check_in_writes (hw projectId : string) (returnQty now : Z) (db : DB)
  : DB :=
  mkDB
    (alter (fun h => Hardware.set_updated_at now
                       (Hardware.inc returnQty (- returnQty) h))
           hw (hardwareDB db))
    (alter (check_in_ledger hw returnQty now) projectId (projectsDB db)).

(** ** JavaScript values of the frontend *)

#[local] Unset Elimination Schemes.
Inductive jsval :=
| JUndefined
| JNull
| JBool (b : bool)
| JNum (z : Z)
| JNaN
| JStr (s : string)
| JObj (fields : list (string * jsval)).
#[local] Set Elimination Schemes.

(** ToBoolean. *)
Definition truthy (v : jsval) : bool :=
  match v with
  | JUndefined | JNull | JNaN => false
  | JBool b => b
  | JNum z => negb (z =? 0)
  | JStr s => negb (String.eqb s EmptyString)
  | JObj _ => true
  end.

(** ToString, as a template literal and [parseInt] apply it. *)
Definition ToString (v : jsval) : string :=
  match v with
  | JUndefined => "undefined"
  | JNull => "null"
  | JBool true => "true"
  | JBool false => "false"
  | JNum z => pretty z
  | JNaN => "NaN"
  | JStr s => s
  | JObj _ => "[object Object]"
  end.

Definition is_object (v : jsval) : bool :=
  match v with JObj _ => true | _ => false end.

Fixpoint field (k : string) (fields : list (string * jsval)) : jsval :=
  match fields with
  | [] => JUndefined
  | (k', v) :: rest => if String.eqb k' k then v else field k rest
  end.

Definition new_TypeError (message : string) : jsval :=
  JObj [("name", JStr "TypeError"); ("message", JStr message)].

(** How a piece of JavaScript completes. *)
Inductive completion (A : Type) :=
| Normal (a : A)
| Throw (e : jsval).
Arguments Normal {A} a.
Arguments Throw {A} e.

(** [v.k]: reading a property of [null] or [undefined] throws; a primitive
    has none of the properties read in this code. *)
Definition get (v : jsval) (k : string) : completion jsval :=
  match v with
  | JObj fields => Normal (field k fields)
  | JUndefined | JNull =>
      Throw (new_TypeError ("Cannot read properties of " ++ ToString v))
  | _ => Normal JUndefined
  end.

(** *** parseInt *)

(** The ASCII members of StrWhiteSpaceChar: TAB, LF, VT, FF, CR and space. *)
Definition is_white_space (c : ascii) : bool :=
  let n := Z.of_nat (nat_of_ascii c) in
  ((9 <=? n) && (n <=? 13)) || (n =? 32).

Fixpoint trim_start (s : string) : string :=
  match s with
  | String c s' => if is_white_space c then trim_start s' else s
  | EmptyString => s
  end.

Definition digit_value (c : ascii) : option Z :=
  let n := Z.of_nat (nat_of_ascii c) in
  if (48 <=? n) && (n <=? 57) then Some (n - 48)
  else if (97 <=? n) && (n <=? 122) then Some (n - 87)
  else if (65 <=? n) && (n <=? 90) then Some (n - 55)
  else None.

(** The value of the longest prefix of radix-[R] digits; [acc] is [None]
    until a digit is read. *)
Fixpoint digits (R : Z) (s : string) (acc : option Z) : option Z :=
  match s with
  | EmptyString => acc
  | String c s' =>
      match digit_value c with
      | Some d =>
          if d <? R
          then digits R s' (Some (default 0 acc * R + d))
          else acc
      | None => acc
      end
  end.

(** [parseInt(string)] with no radix argument; [None] is [NaN]. *)
Definition parseInt (input : string) : option Z :=
  let s := trim_start input in
  let '(sign, s) :=
    match s with
    | String "-" s' => (-1, s')
    | String "+" s' => (1, s')
    | _ => (1, s)
    end in
  let '(R, s) :=
    match s with
    | String "0" (String "x" s') | String "0" (String "X" s') => (16, s')
    | _ => (10, s)
    end in
  Z.mul sign <$> digits R s None.

(** [parseInt(v)] of a value, as a value. *)
Definition parseInt_val (v : jsval) : jsval :=
  match parseInt (ToString v) with
  | Some z => JNum z
  | None => JNaN
  end.

(** ** The axios instance of [services/api.js] *)

Inductive http_method := GET | POST.

Record request := mkRequest {
  method : http_method;
  url : string;
  body : jsval
}.

(** How the promise of an axios request settles: with a response object, or
    with the error it rejects with. *)
Inductive settled :=
| Resolved (response : jsval)
| Rejected (error : jsval).

(** The response interceptor: a response passes through; an error is logged
    on the console, for which the interceptor reads [error.response], and
    rejected again. *)
Definition response_interceptor (r : settled) : settled :=
  match r with
  | Resolved response => Resolved response
  | Rejected error =>
      match get error "response" with
      | Throw e => Rejected e
      | Normal _ => Rejected error
      end
  end.

(** ** The state of [components/HardwareInventoryPage.js] *)

(** An element of [hardwareSets], as the form reads it. *)
Module HardwareSet.
Record t := mk {
  hw_name : string;
  available : Z;
  checked_out : Z
}.
End HardwareSet.

(** The state of the page the two handlers read and set.  [loading]
    becomes [true] when [loadData()] is started; the handlers do not
    await it. *)
Module Page.
Record state := mk {
  selectedHardware : option HardwareSet.t;
  selectedProject : string;
  quantity : string;
  error : jsval;
  loading : bool
}.
End Page.

(** ** Asynchronous code against a server

    [World] is whatever the requests act on; [adapter] is axios's transport,
    the network and the server behind it. *)
Section Frontend.
Context {World : Type}.
Variable adapter : request -> World -> settled * World.

Definition async (A : Type) : Type := World -> completion A * World.

Definition areturn {A} (a : A) : async A := fun w => (Normal a, w).

Definition abind {A B} (m : async A) (k : A -> async B) : async B :=
  fun w =>
    match m w with
    | (Normal a, w') => k a w'
    | (Throw e, w') => (Throw e, w')
    end.

Definition lift {A} (c : completion A) : async A := fun w => (c, w).

(** [try { body } catch (error) { handler }] *)
Definition try_catch {A} (body : async A) (handler : jsval -> async A)
  : async A :=
  fun w =>
    match body w with
    | (Normal a, w') => (Normal a, w')
    | (Throw e, w') => handler e w'
    end.

(** [await api.get(url)] and [await api.post(url, body)]: the request
    interceptor returns the configuration as it is. *)
Definition await_api (r : request) : async jsval :=
  fun w =>
    match adapter r w with
    | (s, w') =>
        match response_interceptor s with
        | Resolved response => (Normal response, w')
        | Rejected error => (Throw error, w')
        end
    end.

Definition api_get (url : string) : async jsval :=
  await_api (mkRequest GET url JUndefined).

Definition api_post (url : string) (body : jsval) : async jsval :=
  await_api (mkRequest POST url body).

(** *** [services/hardwareService.js] *)

Definition connection_failure : jsval :=
  JObj [("success", JBool false);
        ("error", JStr "Failed to connect to server")].

(** The [catch (error)] block every function of the service ends with. *)
Definition on_error (error : jsval) : async jsval :=
  abind (lift (get error "response")) (fun response =>
  if truthy response
  then abind (lift (get response "data")) (fun data =>
       if truthy data then areturn data else areturn connection_failure)
  else areturn connection_failure).

(** [try { const response = await call; return response.data; }
     catch (error) { ... }] *)
Definition service (call : async jsval) : async jsval :=
  try_catch
    (abind call (fun response => lift (get response "data")))
    on_error.

Definition getHardwareSets : async jsval :=
  service (api_get "/get_hardware_sets").

Definition getHardwareAvailability (hwName : jsval) : async jsval :=
  service (api_get ("/get_hardware_availability/" ++ ToString hwName)).

Definition checkOutHardware (projectId hwName quantity : jsval) : async jsval :=
  service (api_post "/check_out"
             (JObj [("project_id", projectId);
                    ("hw_name", hwName);
                    ("quantity", parseInt_val quantity)])).

Definition checkInHardware (projectId hwName quantity : jsval) : async jsval :=
  service (api_post "/check_in"
             (JObj [("project_id", projectId);
                    ("hw_name", hwName);
                    ("quantity", parseInt_val quantity)])).

(** A parameter with a default value: an [undefined] argument takes it. *)
Definition default_parameter (v d : jsval) : jsval :=
  match v with
  | JUndefined => d
  | _ => v
  end.

Definition createHardwareSet (hwName totalCapacity description : jsval)
  : async jsval :=
  let description := default_parameter description (JStr EmptyString) in
  service (api_post "/create_hardware_set"
             (JObj [("hw_name", hwName);
                    ("total_capacity", parseInt_val totalCapacity);
                    ("description", description)])).

(** *** [components/HardwareInventoryPage.js] *)

Definition setError (msg : jsval) (p : Page.state) : Page.state :=
  Page.mk (Page.selectedHardware p) (Page.selectedProject p) (Page.quantity p)
          msg (Page.loading p).

(** [setSelectedHardware(null); setQuantity(''); setSelectedProject('');
    loadData();]  The handler starts [loadData()] and does not await it:
    of the reload only [setLoading(true)] is in the state the handler
    leaves, and its two [GET]s, to [/get_hardware_sets] and to
    [/get_user_projects_list], are not among the requests of the
    handler itself. *)
Definition reset_and_reload (p : Page.state) : Page.state :=
  Page.mk None EmptyString EmptyString (Page.error p) true.

(** [a || b] *)
Definition js_or (a b : jsval) : jsval := if truthy a then a else b.

(** What both handlers do with the response of the service. *)
Definition on_response (fallback : string) (p : Page.state) (response : jsval)
  : async Page.state :=
  abind (lift (get response "success")) (fun success =>
  if truthy success
  then areturn (reset_and_reload p)
  else abind (lift (get response "error")) (fun err =>
       areturn (setError (js_or err (JStr fallback)) p))).

Definition handleCheckout (p0 : Page.state) : async Page.state :=
  let p := setError (JStr EmptyString) p0 in
  if String.eqb (Page.selectedProject p) EmptyString
     || String.eqb (Page.quantity p) EmptyString
  then areturn (setError (JStr "Please select a project and enter quantity") p)
  else
    match parseInt (Page.quantity p) with
    | None => areturn (setError (JStr "Please enter a valid quantity") p)
    | Some qty =>
        if qty <=? 0
        then areturn (setError (JStr "Please enter a valid quantity") p)
        else
          match Page.selectedHardware p with
          | None =>
              lift (Throw (new_TypeError "Cannot read properties of null"))
          | Some hardware =>
              if HardwareSet.available hardware <? qty
              then areturn (setError (JStr "Insufficient hardware available") p)
              else
                try_catch
                  (abind (checkOutHardware (JStr (Page.selectedProject p))
                                           (JStr (HardwareSet.hw_name hardware))
                                           (JNum qty))
                         (on_response "Failed to checkout hardware" p))
                  (fun _ =>
                     areturn
                       (setError (JStr "An error occurred during checkout") p))
          end
    end.

Definition handleCheckin (p0 : Page.state) : async Page.state :=
  let p := setError (JStr EmptyString) p0 in
  if String.eqb (Page.selectedProject p) EmptyString
     || String.eqb (Page.quantity p) EmptyString
  then areturn (setError (JStr "Please select a project and enter quantity") p)
  else
    match parseInt (Page.quantity p) with
    | None => areturn (setError (JStr "Please enter a valid quantity") p)
    | Some qty =>
        if qty <=? 0
        then areturn (setError (JStr "Please enter a valid quantity") p)
        else
          try_catch
            (match Page.selectedHardware p with
             | None =>
                 lift (Throw (new_TypeError "Cannot read properties of null"))
             | Some hardware =>
                 abind (checkInHardware (JStr (Page.selectedProject p))
                                        (JStr (HardwareSet.hw_name hardware))
                                        (JNum qty))
                       (on_response "Failed to check in hardware" p)
             end)
            (fun _ =>
               areturn (setError (JStr "An error occurred during check-in") p))
    end.

(** *** What the service layer owes its callers *)

(** The error of a failed request carries no response body: it has no
    [response], or the response has no [data]. *)
Definition no_response_body (error : jsval) : Prop :=
  forall response data,
    get error "response" = Normal response ->
    truthy response = true ->
    get response "data" = Normal data ->
    truthy data = false.

(** The bodies the server sends are JSON objects. *)
Definition json_bodies (s : settled) : Prop :=
  match s with
  | Resolved response =>
      exists data, get response "data" = Normal data /\ is_object data = true
  | Rejected error =>
      forall response data,
        get error "response" = Normal response ->
        truthy response = true ->
        get response "data" = Normal data ->
        truthy data = true ->
        is_object data = true
  end.

(** [f] sends the request [r] and completes normally whatever becomes of
    it: with the body of the response, with the body of the error
    response, or with [connection_failure] when the error has none; what it
    returns is an object when the bodies of the server are. *)
Definition answers (r : request) (f : async jsval) : Prop :=
  forall w, exists v,
    f w = (Normal v, (adapter r w).2) /\
    match (adapter r w).1 with
    | Resolved response =>
        match get response "data" with
        | Normal data => v = data
        | Throw _ => v = connection_failure
        end
    | Rejected error =>
        (no_response_body error -> v = connection_failure) /\
        (forall response data,
           get error "response" = Normal response ->
           truthy response = true ->
           get response "data" = Normal data ->
           truthy data = true ->
           v = data)
    end /\
    (json_bodies (adapter r w).1 -> is_object v = true).

End Frontend.

(** The quantity of the form is one the handlers refuse: [parseInt] makes
    [NaN] or a number that is not positive of it. *)
Definition refused_quantity (text : string) : Prop :=
  match parseInt text with
  | None => True
  | Some qty => qty <= 0
  end.

(** A server that records the requests it is sent and answers each with
    [{ success: true }]. *)
Definition recorder (r : request) (log : list request)
  : settled * list request :=
  (Resolved (JObj [("data", JObj [("success", JBool true)])]),
   (log ++ [r])%list).

(** The form, open on a hardware set of 50 available units, filled in with
    project [p1] and the quantity [text]. *)
Definition form (text : string) : Page.state :=
  Page.mk (Some (HardwareSet.mk "Arduino Uno" 50 0)) "p1" text
          (JStr EmptyString) false.

(** ** What a ledger says a project holds *)

(** The units of hardware set [hw] a ledger records: the sum of the
    quantities of its records of that set. *)
Fixpoint held (hw : string) (l : list CheckoutRecord) : Z :=
  match l with
  | [] => 0
  | r :: l' =>
      (if bool_decide (hw_name r = hw) then quantity r else 0) + held hw l'
  end.

(** The first record of hardware set [hw], the one the positional operator
    of a check-in stands for. *)
Definition first_checkout (hw : string) (l : list CheckoutRecord)
  : option CheckoutRecord :=
  List.find (fun r => bool_decide (hw_name r = hw)) l.

(** ** Transactions in a row *)

(** A request to the database: one of the two transactions with its
    arguments. *)
Inductive operation :=
| Checkout (hw projectId username : string) (requestedQty now : Z)
| CheckIn (hw projectId : string) (returnQty now : Z).

Definition perform (op : operation) (db : DB) : outcome * DB :=
  match op with
  | Checkout hw projectId username requestedQty now =>
      checkout hw projectId username requestedQty now db
  | CheckIn hw projectId returnQty now =>
      check_in hw projectId returnQty now db
  end.

(** The database after a list of transactions, each run to its end before
    the next starts. *)
Fixpoint perform_all (ops : list operation) (db : DB) : DB :=
  match ops with
  | [] => db
  | op :: rest => perform_all rest (perform op db).2
  end.

(** The quantity of the transaction is not negative, and a check-in returns
    no more than the hardware set has checked out. *)
Definition within_counters (op : operation) (db : DB) : Prop :=
  match op with
  | Checkout _ _ _ requestedQty _ => 0 <= requestedQty
  | CheckIn hw _ returnQty _ =>
      0 <= returnQty /\
      forall h, hardwareDB db !! hw = Some h -> returnQty <= Hardware.checked_out h
  end.

Fixpoint all_within_counters (ops : list operation) (db : DB) : Prop :=
  match ops with
  | [] => True
  | op :: rest =>
      within_counters op db /\ all_within_counters rest (perform op db).2
  end.

(** ** Ledgers and counters together *)

(** The units of hardware set [hw] the ledgers of all projects record. *)
Definition total_held (hw : string) (projects : gmap string Project.doc) : Z :=
  map_fold (fun _ p acc => held hw (Project.hardware_checkouts p) + acc)
           0 projects.

(** The counter of every hardware set is what the ledgers record of it. *)
Definition ledgers_agree (db : DB) : Prop :=
  forall hw h,
    hardwareDB db !! hw = Some h ->
    Hardware.checked_out h = total_held hw (projectsDB db).

(** ** Decimal numerals *)

Definition is_digit (c : ascii) : bool :=
  let n := Z.of_nat (nat_of_ascii c) in
  (48 <=? n) && (n <=? 57).

Fixpoint all_digits (s : string) : bool :=
  match s with
  | EmptyString => true
  | String c s' => is_digit c && all_digits s'
  end.

(** A [Number] that holds an integer exactly. *)
Definition safe_integer (z : Z) : Prop := Z.abs z < 2 ^ 53.

(** ** The requests a handler sends *)

(** The server behind [adapter], with a log of the requests it is sent. *)
Definition logged {World : Type} (adapter : request -> World -> settled * World)
    (r : request) (wl : World * list request)
  : settled * (World * list request) :=
  ((adapter r wl.1).1, ((adapter r wl.1).2, (wl.2 ++ [r])%list)).

(** ** The other services *)

Section Services.
Context {World : Type}.
Variable adapter : request -> World -> settled * World.

(** *** [services/hardwareService.js], continued *)

Definition getProjectCheckouts (projectId : jsval) : async jsval :=
  service (api_get adapter ("/project_checkouts/" ++ ToString projectId)).

(** *** [services/authService.js] *)

Definition register (username password : jsval) : async jsval :=
  service (api_post adapter "/register"
             (JObj [("username", username); ("password", password)])).

Definition login (username password : jsval) : async jsval :=
  service (api_post adapter "/login"
             (JObj [("username", username); ("password", password)])).

Definition logout : async jsval :=
  service (api_post adapter "/logout" JUndefined).

(** *** [services/projectService.js] *)

Definition getUserProjects : async jsval :=
  service (api_get adapter "/get_user_projects_list").

Definition createProject (name description : jsval) : async jsval :=
  let description := default_parameter description (JStr EmptyString) in
  service (api_post adapter "/create_project"
             (JObj [("name", name); ("description", description)])).

Definition joinProject (projectId : jsval) : async jsval :=
  service (api_post adapter "/join_project"
             (JObj [("project_id", projectId)])).

Definition getProjectDetails (projectId : jsval) : async jsval :=
  service (api_get adapter ("/get_project_details/" ++ ToString projectId)).

Definition leaveProject (projectId : jsval) : async jsval :=
  service (api_post adapter "/leave_project"
             (JObj [("project_id", projectId)])).
End Services.

(** ** The session in the browser *)

(** The state of [App]. *)
Module App.
Record state := mk {
  isAuthenticated : bool;
  username : string
}.
End App.

(** What the components share: the state of [App], [localStorage] and the
    path the router is at. *)
Record Browser := mkBrowser {
  App_state : App.state;
  localStorage : gmap string string;
  location : string
}.

(** [handleLogin] of [App]. *)
Definition handleLogin (user : string) (b : Browser) : Browser :=
  mkBrowser (App.mk true user) (<["username" := user]> (localStorage b))
            (location b).

(** [handleLogout] of [App]. *)
Definition handleLogout (b : Browser) : Browser :=
  mkBrowser (App.mk false EmptyString) (delete "username" (localStorage b))
            (location b).

(** The effect [App] runs when it is mounted: a stored user name that is not
    empty is taken over. *)
Definition App_mount (b : Browser) : Browser :=
  match localStorage b !! "username" with
  | Some storedUsername =>
      if String.eqb storedUsername EmptyString then b
      else mkBrowser (App.mk true storedUsername) (localStorage b) (location b)
  | None => b
  end.

(** The browser as a page load finds it: [App] in its initial state. *)
Definition reload (b : Browser) : Browser :=
  App_mount (mkBrowser (App.mk false EmptyString) (localStorage b) (location b)).

(** [isAuthenticated] and [getCurrentUsername] of [services/authService.js]. *)
Definition isAuthenticated (b : Browser) : bool :=
  bool_decide (localStorage b !! "username" <> None).

Definition getCurrentUsername (b : Browser) : option string :=
  localStorage b !! "username".

(** [navigate(path)] *)
Definition navigate (path : string) (b : Browser) : Browser :=
  mkBrowser (App_state b) (localStorage b) path.

(** ** [components/MainPortal.js] *)

Section MainPortal.
Context {World : Type}.
Variable adapter : request -> World -> settled * World.

(** [handleLogout] of [MainPortal], with [handleLogout] of [App] for
    [onLogout]. *)
Definition MainPortal_handleLogout (b : Browser) : async Browser :=
  try_catch
    (abind (logout adapter) (fun _ =>
     areturn (navigate "/login" (handleLogout b))))
    (fun _ => areturn (navigate "/login" (handleLogout b))).
End MainPortal.

(** ** [components/LoginPage.js] *)

Module LoginPage.
Record state := mk {
  isLoginMode : bool;
  username : string;
  password : string;
  confirmPassword : string;
  error : jsval;
  loading : bool
}.

Definition setError (msg : jsval) (s : state) : state :=
  mk (isLoginMode s) (username s) (password s) (confirmPassword s) msg
     (loading s).

Definition setLoading (l : bool) (s : state) : state :=
  mk (isLoginMode s) (username s) (password s) (confirmPassword s) (error s) l.
End LoginPage.

Section LoginPage.
Context {World : Type}.
Variable adapter : request -> World -> settled * World.

(** The [try] block of [handleSubmit]: what becomes of the page and, through
    [onLogin], of the browser. *)
Definition submit_credentials (s : LoginPage.state) (b : Browser)
  : async (LoginPage.state * Browser) :=
  let username := JStr (LoginPage.username s) in
  let password := JStr (LoginPage.password s) in
  if LoginPage.isLoginMode s
  then
    abind (login adapter username password) (fun response =>
    abind (lift (get response "success")) (fun success =>
    if truthy success
    then areturn (s, handleLogin (LoginPage.username s) b)
    else abind (lift (get response "error")) (fun err =>
         areturn (LoginPage.setError (js_or err (JStr "Login failed")) s, b))))
  else
    abind (register adapter username password) (fun response =>
    abind (lift (get response "success")) (fun success =>
    if truthy success
    then
      abind (login adapter username password) (fun loginResponse =>
      abind (lift (get loginResponse "success")) (fun loginSuccess =>
      if truthy loginSuccess
      then areturn (s, handleLogin (LoginPage.username s) b)
      else areturn (s, b)))
    else abind (lift (get response "error")) (fun err =>
         areturn
           (LoginPage.setError (js_or err (JStr "Registration failed")) s, b)))).

(** [handleSubmit], with [handleLogin] of [App] for [onLogin].  The length
    of the password is its number of characters, one byte each. *)
Definition handleSubmit (s0 : LoginPage.state) (b : Browser)
  : async (LoginPage.state * Browser) :=
  let s := LoginPage.setLoading true (LoginPage.setError (JStr EmptyString) s0) in
  let refuse (msg : string) :=
    areturn (LoginPage.setLoading false (LoginPage.setError (JStr msg) s), b) in
  if String.eqb (LoginPage.username s) EmptyString
     || String.eqb (LoginPage.password s) EmptyString
  then refuse "Please fill in all fields"
  else if negb (LoginPage.isLoginMode s)
          && negb (String.eqb (LoginPage.password s) (LoginPage.confirmPassword s))
  then refuse "Passwords do not match"
  else if negb (LoginPage.isLoginMode s)
          && (Z.of_nat (String.length (LoginPage.password s)) <? 8)
  then refuse "Password must be at least 8 characters"
  else
    abind
      (try_catch
         (submit_credentials s b)
         (fun _ =>
            areturn
              (LoginPage.setError (JStr "An error occurred. Please try again.") s,
               b)))
      (fun '(s', b') => areturn (LoginPage.setLoading false s', b')).
End LoginPage.

(** ** [components/ProjectPage.js] *)

(** [s.trim()]: the string without the white space at its ends, white space
    being what [parseInt] skips. *)
Fixpoint trim_end (s : string) : string :=
  match s with
  | EmptyString => EmptyString
  | String c s' =>
      match trim_end s' with
      | EmptyString =>
          if is_white_space c then EmptyString else String c EmptyString
      | t => String c t
      end
  end.

Definition trim (s : string) : string := trim_end (trim_start s).

Module ProjectPage.
Record state := mk {
  projectName : string;
  projectDescription : string;
  projectIdToJoin : string;
  showCreateForm : bool;
  showJoinForm : bool;
  error : jsval;
  loading : bool
}.

Definition setError (msg : jsval) (s : state) : state :=
  mk (projectName s) (projectDescription s) (projectIdToJoin s)
     (showCreateForm s) (showJoinForm s) msg (loading s).

(** [setShowCreateForm(false); setProjectName(''); setProjectDescription('');
    loadProjects();]  The reload is started and not awaited: its [GET] is
    not among the requests of the handler itself. *)
Definition created (s : state) : state :=
  mk EmptyString EmptyString (projectIdToJoin s) false (showJoinForm s)
     (error s) true.

(** [setShowJoinForm(false); setProjectIdToJoin(''); loadProjects();] *)
Definition joined (s : state) : state :=
  mk (projectName s) (projectDescription s) EmptyString (showCreateForm s) false
     (error s) true.
End ProjectPage.

Section ProjectPage.
Context {World : Type}.
Variable adapter : request -> World -> settled * World.

Definition handleCreateProject (s0 : ProjectPage.state)
  : async ProjectPage.state :=
  let s := ProjectPage.setError (JStr EmptyString) s0 in
  if String.eqb (trim (ProjectPage.projectName s)) EmptyString
  then areturn (ProjectPage.setError (JStr "Project name is required") s)
  else
    try_catch
      (abind (createProject adapter (JStr (ProjectPage.projectName s))
                                    (JStr (ProjectPage.projectDescription s)))
             (fun response =>
      abind (lift (get response "success")) (fun success =>
      if truthy success
      then areturn (ProjectPage.created s)
      else abind (lift (get response "error")) (fun err =>
           areturn (ProjectPage.setError
                      (js_or err (JStr "Failed to create project")) s)))))
      (fun _ =>
         areturn (ProjectPage.setError
                    (JStr "An error occurred while creating project") s)).

Definition handleJoinProject (s0 : ProjectPage.state)
  : async ProjectPage.state :=
  let s := ProjectPage.setError (JStr EmptyString) s0 in
  if String.eqb (trim (ProjectPage.projectIdToJoin s)) EmptyString
  then areturn (ProjectPage.setError (JStr "Project ID is required") s)
  else
    try_catch
      (abind (joinProject adapter (JStr (ProjectPage.projectIdToJoin s)))
             (fun response =>
      abind (lift (get response "success")) (fun success =>
      if truthy success
      then areturn (ProjectPage.joined s)
      else abind (lift (get response "error")) (fun err =>
           areturn (ProjectPage.setError
                      (js_or err (JStr "Failed to join project")) s)))))
      (fun _ =>
         areturn (ProjectPage.setError
                    (JStr "An error occurred while joining project") s)).
End ProjectPage.

(** ** [components/HardwareInventoryPage.js], continued *)

(** [openForm(hardware, isCheckout)]: the page, and the mode of the form. *)
Definition openForm (hardware : HardwareSet.t) (isCheckout : bool)
    (p : Page.state) : Page.state * bool :=
  (Page.mk (Some hardware) EmptyString EmptyString (JStr EmptyString)
           (Page.loading p),
   isCheckout).

(** [onSubmit={isCheckoutMode ? handleCheckout : handleCheckin}] *)
Definition onSubmit {World : Type} (adapter : request -> World -> settled * World)
    (form : Page.state * bool) : World -> completion Page.state * World :=
  if form.2 then handleCheckout adapter form.1 else handleCheckin adapter form.1.

(** What the handlers make of a value the service returns. *)
Definition shown (fallback caught : string) (p : Page.state) (v : jsval)
  : Page.state :=
  match get v "success" with
  | Throw _ => setError (JStr caught) p
  | Normal success =>
      if truthy success then reset_and_reload p
      else setError (js_or (field "error" match v with
                                          | JObj fields => fields
                                          | _ => []
                                          end)
                           (JStr fallback)) p
  end.

(** The form as [handleSubmit] leaves it when it refuses it. *)
Definition refused_with (msg : string) (s : LoginPage.state) : LoginPage.state :=
  LoginPage.mk (LoginPage.isLoginMode s) (LoginPage.username s)
               (LoginPage.password s) (LoginPage.confirmPassword s)
               (JStr msg) false.

(** The string is empty or all white space. *)
Fixpoint all_white_space (s : string) : bool :=
  match s with
  | EmptyString => true
  | String c s' => is_white_space c && all_white_space s'
  end.

(** ** Where the model is exact *)

(** The text has ASCII characters only. *)
Fixpoint is_ascii_text (s : string) : bool :=
  match s with
  | EmptyString => true
  | String c s' => (Z.of_nat (nat_of_ascii c) <? 128) && is_ascii_text s'
  end.

(** A value [ToString] writes as JavaScript does: a number is an integer a
    [Number] holds exactly. *)
Definition exact_number (v : jsval) : Prop :=
  match v with
  | JNum z => safe_integer z
  | _ => True
  end.

(** A value [parseInt] reads as JavaScript does: its text is ASCII, and the
    integer read is one a [Number] holds exactly. *)
Definition parses_exactly (v : jsval) : Prop :=
  exact_number v /\
  (forall s, v = JStr s -> is_ascii_text s = true) /\
  (forall z, parseInt (ToString v) = Some z -> safe_integer z).

(** The counters of the hardware set a transaction names, and what its
    [$inc] makes of them, are integers a [Number] holds exactly. *)
Definition exact_counters (op : operation) (db : DB) : Prop :=
  let exact hw q :=
    forall h,
      hardwareDB db !! hw = Some h ->
      Z.abs (Hardware.available h) + Z.abs q < 2 ^ 53 /\
      Z.abs (Hardware.checked_out h) + Z.abs q < 2 ^ 53 in
  match op with
  | Checkout hw _ _ requestedQty _ => exact hw requestedQty
  | CheckIn hw _ returnQty _ => exact hw returnQty
  end.

Fixpoint all_exact_counters (ops : list operation) (db : DB) : Prop :=
  match ops with
  | [] => True
  | op :: rest =>
      exact_counters op db /\ all_exact_counters rest (perform op db).2
  end.

(** The requests of a log that went to [path]. *)
Definition to_url (path : string) (log : list request) : list request :=
  List.filter (fun r => String.eqb (url r) path) log.

(** * Properties *)

(** ** The two transactions, case by case *)

Section Transactions.
Variables (hw projectId username : string) (now : Z).

Lemma checkout_not_found requestedQty db :
  hardwareDB db !! hw = None ->
  exists msg,
    checkout hw projectId username requestedQty now db
    = (Aborted (TypeError msg), db).
Proof.
  intros Hnone. eexists.
  unfold checkout, transaction, bind, findOne_hardware.
  rewrite Hnone. reflexivity.
Qed.

(** The availability check compares the stored [available] field. *)
Lemma checkout_insufficient requestedQty db h :
  hardwareDB db !! hw = Some h ->
  Hardware.available h < requestedQty ->
  checkout hw projectId username requestedQty now db
  = (Aborted InsufficientAvailability, db).
Proof.
  intros Hh Hlt.
  unfold checkout, transaction, bind, findOne_hardware.
  rewrite Hh.
  destruct (Z.ltb_spec (Hardware.available h) requestedQty); [reflexivity | lia].
Qed.

Lemma checkout_sufficient requestedQty db h :
  hardwareDB db !! hw = Some h ->
  requestedQty <= Hardware.available h ->
  checkout hw projectId username requestedQty now db
  = (Committed, checkout_writes hw projectId username requestedQty now db).
Proof.
  intros Hh Hle.
  unfold checkout, transaction, bind, findOne_hardware.
  rewrite Hh.
  destruct (Z.ltb_spec (Hardware.available h) requestedQty); [lia | reflexivity].
Qed.

(** A checkout that commits passed the availability check. *)
Lemma checkout_committed requestedQty db db' :
  checkout hw projectId username requestedQty now db = (Committed, db') ->
  exists h,
    hardwareDB db !! hw = Some h /\
    requestedQty <= Hardware.available h /\
    db' = checkout_writes hw projectId username requestedQty now db.
Proof.
  intros Hrun.
  destruct (hardwareDB db !! hw) as [h|] eqn:Hh.
  - destruct (Z.lt_ge_cases (Hardware.available h) requestedQty) as [Hlt|Hge].
    + rewrite (checkout_insufficient _ _ _ Hh Hlt) in Hrun. discriminate.
    + rewrite (checkout_sufficient _ _ _ Hh Hge) in Hrun.
      exists h. repeat split; [assumption | congruence].
  - destruct (checkout_not_found requestedQty db Hh) as [msg Hmsg].
    rewrite Hmsg in Hrun. discriminate.
Qed.

(** An aborted checkout wrote nothing. *)
Lemma checkout_aborted requestedQty db db' e :
  checkout hw projectId username requestedQty now db = (Aborted e, db') ->
  db' = db.
Proof.
  unfold checkout, transaction. intros Hrun.
  destruct (bind _ _ db) as [e'|[[] db'']]; congruence.
Qed.

(** Nothing in a check-in throws: it commits whatever it is given. *)
Lemma check_in_commits returnQty db :
  check_in hw projectId returnQty now db
  = (Committed, check_in_writes hw projectId returnQty now db).
Proof.
  unfold check_in, transaction, bind, updateOne_hardware, updateOne_project,
    ret, check_in_writes. cbn.
  do 2 f_equal.
  rewrite alter_alter_eq. apply alter_ext. intros p _. reflexivity.
Qed.
End Transactions.

(** ** The counters *)

(** On a balanced document the stored [available] is the derived
    [total_capacity - checked_out]. *)
Lemma available_balanced h :
  Hardware.balanced h ->
  Hardware.available h = Hardware.total_capacity h - Hardware.checked_out h.
Proof. unfold Hardware.balanced. lia. Qed.

(** A symmetric [$inc] keeps the sum of the two counters. *)
Lemma inc_balanced d t h :
  Hardware.balanced h ->
  Hardware.balanced (Hardware.set_updated_at t (Hardware.inc (- d) d h)) /\
  Hardware.balanced (Hardware.set_updated_at t (Hardware.inc d (- d) h)).
Proof. unfold Hardware.balanced. cbn. lia. Qed.

Lemma checkout_keeps_balance hw projectId username requestedQty now db o db' :
  all_balanced db ->
  checkout hw projectId username requestedQty now db = (o, db') ->
  all_balanced db'.
Proof.
  intros Hdb Hrun. destruct o as [|e].
  - apply checkout_committed in Hrun as (h & Hh & _ & ->).
    intros hw' h'. cbn. rewrite lookup_alter_Some.
    intros [(<- & x & Hx & ->) | (_ & Hx)]; [| eauto].
    apply inc_balanced. eauto.
  - apply checkout_aborted in Hrun as ->. assumption.
Qed.

Lemma check_in_keeps_balance hw projectId returnQty now db o db' :
  all_balanced db ->
  check_in hw projectId returnQty now db = (o, db') ->
  all_balanced db'.
Proof.
  intros Hdb. rewrite check_in_commits. intros [= <- <-].
  intros hw' h'. cbn. rewrite lookup_alter_Some.
  intros [(<- & x & Hx & ->) | (_ & Hx)]; [| eauto].
  apply inc_balanced. eauto.
Qed.

(** A checkout of a non-negative quantity keeps the counters in range. *)
Lemma checkout_keeps_valid hw projectId username requestedQty now db o db' :
  0 <= requestedQty ->
  all_valid db ->
  checkout hw projectId username requestedQty now db = (o, db') ->
  all_valid db'.
Proof.
  intros Hq Hdb Hrun. destruct o as [|e].
  - apply checkout_committed in Hrun as (h & Hh & Hle & ->).
    intros hw' h'. cbn. rewrite lookup_alter_Some.
    intros [(<- & x & Hx & ->) | (_ & Hx)]; [| eauto].
    assert (x = h) as -> by congruence.
    specialize (Hdb _ _ Hh).
    unfold Hardware.valid, Hardware.bounds, Hardware.balanced in *. cbn. lia.
  - apply checkout_aborted in Hrun as ->. assumption.
Qed.

(** A check-in of at most what is checked out keeps the counters in range. *)
Lemma check_in_keeps_valid hw projectId returnQty now db o db' h :
  hardwareDB db !! hw = Some h ->
  0 <= returnQty <= Hardware.checked_out h ->
  all_valid db ->
  check_in hw projectId returnQty now db = (o, db') ->
  all_valid db'.
Proof.
  intros Hh Hq Hdb. rewrite check_in_commits. intros [= <- <-].
  intros hw' h'. cbn. rewrite lookup_alter_Some.
  intros [(<- & x & Hx & ->) | (_ & Hx)]; [| eauto].
  assert (x = h) as -> by congruence.
  specialize (Hdb _ _ Hh).
  unfold Hardware.valid, Hardware.bounds, Hardware.balanced in *. cbn. lia.
Qed.

(** ** Claims on the transactions *)

(** C1: the counters are meant to satisfy [0 <= checked_out <= total_capacity]
    and [available + checked_out = total_capacity] after every checkout and
    check-in.  The check-in transaction has no bounds check: on a hardware
    set as created, with nothing checked out, a check-in of one unit commits
    and leaves [checked_out = -1] and [available = 51] against a capacity of
    50, so the document is no longer valid. *)
Theorem check_in_breaks_counter_bounds :
  Hardware.valid (arduino 50 0) /\
  hardwareDB db0 !! "Arduino Uno" = Some (arduino 50 0) /\
  exists db' h',
    check_in "Arduino Uno" "p1" 1 2000 db0 = (Committed, db') /\
    hardwareDB db' !! "Arduino Uno" = Some h' /\
    Hardware.total_capacity h' = 50 /\
    Hardware.available h' = 51 /\
    Hardware.checked_out h' = -1 /\
    ~ Hardware.valid h'.
Proof.
  split; [| split].
  - unfold Hardware.valid, Hardware.bounds, Hardware.balanced. cbn. lia.
  - reflexivity.
  - rewrite check_in_commits. do 2 eexists.
    split; [reflexivity |]. split; [vm_compute; reflexivity |].
    cbn. repeat split.
    unfold Hardware.valid, Hardware.bounds. cbn. lia.
Qed.

(** C2: a checkout that asks for more than the hardware set's current
    availability, [total_capacity - checked_out], aborts with
    [InsufficientAvailability] and leaves the whole database, counters and
    ledgers, as it was. *)
Theorem checkout_insufficient_no_change
    (hw projectId username : string) (requestedQty now : Z) (db : DB)
    (h : Hardware.doc) :
  hardwareDB db !! hw = Some h ->
  Hardware.balanced h ->
  requestedQty > Hardware.total_capacity h - Hardware.checked_out h ->
  checkout hw projectId username requestedQty now db
  = (Aborted InsufficientAvailability, db).
Proof.
  intros Hh Hbal Hq.
  apply checkout_insufficient with (h := h); [assumption |].
  rewrite (available_balanced h Hbal). lia.
Qed.

Lemma checkout_insufficient_no_change_witness :
  checkout "Arduino Uno" "p1" "john_doe" 51 2000 db0
  = (Aborted InsufficientAvailability, db0).
Proof.
  apply (checkout_insufficient_no_change
           "Arduino Uno" "p1" "john_doe" 51 2000 db0 (arduino 50 0)).
  - reflexivity.
  - reflexivity.
  - cbn. lia.
Defined.

(** C3: a check-in for a project that holds no record of the hardware set,
    or of more than its record holds, is meant to fail and change nothing.
    The check-in transaction checks neither: with no record it commits and
    moves the counters of the hardware set; with a record of 10 units and a
    return of 20 it commits, moves the counters by 20 and drops the
    record. *)
Theorem check_in_over_release_commits :
  (exists db' h',
     Project.hardware_checkouts <$> projectsDB db0 !! "p1" = Some [] /\
     check_in "Arduino Uno" "p1" 1 2000 db0 = (Committed, db') /\
     hardwareDB db' !! "Arduino Uno" = Some h' /\
     (Hardware.available h', Hardware.checked_out h') = (51, -1)) /\
  (exists db' h',
     Project.hardware_checkouts <$> projectsDB db_held !! "p1"
     = Some [mkCheckoutRecord "Arduino Uno" 10 1500 "john_doe"] /\
     hardwareDB db_held !! "Arduino Uno" = Some (arduino 40 10) /\
     check_in "Arduino Uno" "p1" 20 2000 db_held = (Committed, db') /\
     hardwareDB db' !! "Arduino Uno" = Some h' /\
     (Hardware.available h', Hardware.checked_out h') = (60, -10) /\
     Project.hardware_checkouts <$> projectsDB db' !! "p1" = Some []).
Proof.
  split; do 2 eexists; rewrite check_in_commits;
    repeat (split; [vm_compute; reflexivity |]); vm_compute; reflexivity.
Qed.

(** C4, as stated, fails: two checkouts of the same hardware set for the same
    project leave two records in the project's ledger, of 5 and of 3 units,
    not one record of 8. *)
Lemma second_checkout_pushes_second_record :
  exists db1 db2,
    checkout "Arduino Uno" "p1" "john_doe" 5 2000 db0 = (Committed, db1) /\
    checkout "Arduino Uno" "p1" "jane_smith" 3 3000 db1 = (Committed, db2) /\
    Project.hardware_checkouts <$> projectsDB db2 !! "p1"
    = Some [mkCheckoutRecord "Arduino Uno" 5 2000 "john_doe";
            mkCheckoutRecord "Arduino Uno" 3 3000 "jane_smith"].
Proof.
  do 2 eexists. repeat split; vm_compute; reflexivity.
Qed.

(** C4, amended: every checkout that commits appends one new record, of the
    requested quantity, at the end of the project's ledger and leaves the
    records already there as they are; the project holds one more record of
    that hardware set than before. *)
Theorem checkout_appends_record
    (hw projectId username : string) (requestedQty now : Z) (db db' : DB)
    (p : Project.doc) :
  checkout hw projectId username requestedQty now db = (Committed, db') ->
  projectsDB db !! projectId = Some p ->
  exists p',
    projectsDB db' !! projectId = Some p' /\
    Project.hardware_checkouts p'
    = (Project.hardware_checkouts p
       ++ [mkCheckoutRecord hw requestedQty now username])%list /\
    length (checkouts_of hw (Project.hardware_checkouts p'))
    = S (length (checkouts_of hw (Project.hardware_checkouts p))).
Proof.
  intros Hrun Hp.
  apply checkout_committed in Hrun as (h & _ & _ & ->).
  eexists. split; [| split].
  - cbn. rewrite lookup_alter_eq, Hp. reflexivity.
  - reflexivity.
  - cbn. unfold checkouts_of. rewrite List.filter_app, length_app. cbn.
    rewrite bool_decide_eq_true_2 by reflexivity. cbn. lia.
Qed.

Lemma checkout_appends_record_witness :
  exists p',
    projectsDB (checkout_writes "Arduino Uno" "p1" "jane_smith" 3 3000 db_held)
      !! "p1" = Some p' /\
    Project.hardware_checkouts p'
    = [mkCheckoutRecord "Arduino Uno" 10 1500 "john_doe";
       mkCheckoutRecord "Arduino Uno" 3 3000 "jane_smith"] /\
    length (checkouts_of "Arduino Uno" (Project.hardware_checkouts p')) = 2%nat.
Proof.
  apply (checkout_appends_record "Arduino Uno" "p1" "jane_smith" 3 3000 db_held
           (checkout_writes "Arduino Uno" "p1" "jane_smith" 3 3000 db_held)
           (iot [mkCheckoutRecord "Arduino Uno" 10 1500 "john_doe"] 1500)).
  - vm_compute. reflexivity.
  - vm_compute. reflexivity.
Defined.

(** C5: a checkout of [q] units that the hardware set can serve, followed by
    a check-in of [q] units, commits twice and returns the hardware set to
    its [available] and [checked_out] of before the checkout. *)
Theorem checkout_then_check_in_restores_counters
    (hw projectId username : string) (q t1 t2 : Z) (db : DB) (h : Hardware.doc) :
  hardwareDB db !! hw = Some h ->
  0 < q ->
  q <= Hardware.available h ->
  exists db1 db2 h2,
    checkout hw projectId username q t1 db = (Committed, db1) /\
    check_in hw projectId q t2 db1 = (Committed, db2) /\
    hardwareDB db2 !! hw = Some h2 /\
    Hardware.available h2 = Hardware.available h /\
    Hardware.checked_out h2 = Hardware.checked_out h /\
    Hardware.total_capacity h2 = Hardware.total_capacity h.
Proof.
  intros Hh Hpos Hle.
  do 3 eexists.
  split; [apply checkout_sufficient with (h := h); assumption |].
  split; [apply check_in_commits |].
  split.
  - cbn. rewrite !lookup_alter_eq, Hh. reflexivity.
  - cbn. repeat split; lia.
Qed.

Lemma checkout_then_check_in_restores_counters_witness :
  exists db1 db2 h2,
    checkout "Arduino Uno" "p1" "john_doe" 7 2000 db_held = (Committed, db1) /\
    check_in "Arduino Uno" "p1" 7 3000 db1 = (Committed, db2) /\
    hardwareDB db2 !! "Arduino Uno" = Some h2 /\
    Hardware.available h2 = 40 /\
    Hardware.checked_out h2 = 10 /\
    Hardware.total_capacity h2 = 50.
Proof.
  apply (checkout_then_check_in_restores_counters
           "Arduino Uno" "p1" "john_doe" 7 2000 3000 db_held (arduino 40 10)).
  - reflexivity.
  - lia.
  - cbn. lia.
Defined.

(** C6: a checkout of exactly the available units, when there are any,
    commits and leaves [available = 0]; a checkout of one more unit then
    aborts with [InsufficientAvailability]. *)
Theorem checkout_exact_then_one_more
    (hw projectId username projectId' username' : string) (t1 t2 : Z) (db : DB)
    (h : Hardware.doc) :
  hardwareDB db !! hw = Some h ->
  0 < Hardware.available h ->
  exists db1 h1,
    checkout hw projectId username (Hardware.available h) t1 db
    = (Committed, db1) /\
    hardwareDB db1 !! hw = Some h1 /\
    Hardware.available h1 = 0 /\
    checkout hw projectId' username' 1 t2 db1
    = (Aborted InsufficientAvailability, db1).
Proof.
  intros Hh Hpos.
  do 2 eexists.
  split; [apply checkout_sufficient with (h := h); [assumption | lia] |].
  assert (Hh1 : hardwareDB
                  (checkout_writes hw projectId username (Hardware.available h) t1 db)
                  !! hw
                = Some (Hardware.set_updated_at t1
                          (Hardware.inc (- Hardware.available h)
                                        (Hardware.available h) h))).
  { cbn. rewrite lookup_alter_eq, Hh. reflexivity. }
  split; [exact Hh1 |].
  split; [cbn; lia |].
  eapply checkout_insufficient; [exact Hh1 | cbn; lia].
Qed.

Lemma checkout_exact_then_one_more_witness :
  exists db1 h1,
    checkout "Arduino Uno" "p1" "john_doe" 40 2000 db_held = (Committed, db1) /\
    hardwareDB db1 !! "Arduino Uno" = Some h1 /\
    Hardware.available h1 = 0 /\
    checkout "Arduino Uno" "p2" "bob_wilson" 1 3000 db1
    = (Aborted InsufficientAvailability, db1).
Proof.
  apply (checkout_exact_then_one_more
           "Arduino Uno" "p1" "john_doe" "p2" "bob_wilson" 2000 3000 db_held
           (arduino 40 10)).
  - reflexivity.
  - cbn. lia.
Defined.

(** ** Checkouts in a row *)

(** Served one after the other, [N] checkouts of one unit against [K < N]
    available units commit [K] times; the hardware set ends with nothing
    available and [K] more units checked out. *)
Lemma reserve_each_serial hw now callers : forall db h,
  hardwareDB db !! hw = Some h ->
  0 <= Hardware.available h ->
  exists h',
    hardwareDB (reserve_each hw now callers db).2 !! hw = Some h' /\
    Z.of_nat (reserve_each hw now callers db).1
    = Z.min (Hardware.available h) (Z.of_nat (length callers)) /\
    Hardware.available h'
    = Hardware.available h - Z.of_nat (reserve_each hw now callers db).1 /\
    Hardware.checked_out h'
    = Hardware.checked_out h + Z.of_nat (reserve_each hw now callers db).1 /\
    Hardware.total_capacity h' = Hardware.total_capacity h.
Proof.
  induction callers as [|[projectId username] rest IH]; intros db h Hh Hav.
  - exists h. cbn. repeat split; [assumption | lia | lia | lia].
  - cbn [reserve_each length].
    destruct (Z.lt_ge_cases (Hardware.available h) 1) as [Hlt|Hge].
    + rewrite (checkout_insufficient hw projectId username now 1 db h Hh Hlt).
      destruct (IH db h Hh Hav) as (h' & Hh' & Hk & Ha & Hc & Ht).
      destruct (reserve_each hw now rest db) as [k db2]. cbn in *.
      exists h'. repeat split; [assumption | lia | lia | lia | lia].
    + rewrite (checkout_sufficient hw projectId username now 1 db h Hh Hge).
      set (db1 := checkout_writes hw projectId username 1 now db).
      assert (Hh1 : hardwareDB db1 !! hw
                    = Some (Hardware.set_updated_at now (Hardware.inc (- 1) 1 h))).
      { subst db1. cbn. rewrite lookup_alter_eq, Hh. reflexivity. }
      destruct (IH db1 _ Hh1) as (h' & Hh' & Hk & Ha & Hc & Ht); [cbn; lia |].
      destruct (reserve_each hw now rest db1) as [k db2]. cbn in *.
      exists h'. repeat split; [assumption | lia | lia | lia | lia].
Qed.

(** ** The ledger of a check-in *)

(** The positional [$inc] leaves the records of other hardware sets alone. *)
Lemma inc_first_other hw d l r :
  hw_name r <> hw ->
  In r (inc_first hw d l) <-> In r l.
Proof.
  intros Hne. induction l as [|a l IH]; cbn; [tauto |].
  case_bool_decide as Ha.
  - cbn. split; intros [Heq|Hin]; auto.
    + subst r. cbn in Hne. contradiction.
    + subst r. contradiction.
  - cbn. rewrite IH. tauto.
Qed.

Lemma pull_lte_0_In l r :
  In r (pull_lte_0 l) <-> In r l /\ 0 < quantity r.
Proof.
  unfold pull_lte_0. rewrite List.filter_In.
  destruct (Z.leb_spec (quantity r) 0); cbn; intuition (lia || congruence).
Qed.

(** C10: the clean-up of a check-in is not keyed to the hardware set that is
    returned.  After a check-in for hardware set [hw] and project
    [projectId], no record of the project's ledger, of whatever hardware
    set, has a quantity of zero or less; a record of another hardware set
    is in the ledger afterwards exactly when it was there before with a
    positive quantity. *)
Theorem check_in_pulls_every_nonpositive_record
    (hw projectId : string) (returnQty now : Z) (db : DB) (p : Project.doc) :
  projectsDB db !! projectId = Some p ->
  exists db' p',
    check_in hw projectId returnQty now db = (Committed, db') /\
    projectsDB db' !! projectId = Some p' /\
    (forall r, In r (Project.hardware_checkouts p') -> 0 < quantity r) /\
    (forall r, hw_name r <> hw ->
       In r (Project.hardware_checkouts p')
       <-> In r (Project.hardware_checkouts p) /\ 0 < quantity r).
Proof.
  intros Hp.
  exists (check_in_writes hw projectId returnQty now db),
         (check_in_ledger hw returnQty now p).
  split; [apply check_in_commits |].
  split; [cbn; rewrite lookup_alter_eq, Hp; reflexivity |].
  unfold check_in_ledger.
  split.
  - intros r Hin. cbn in Hin. apply pull_lte_0_In in Hin. tauto.
  - intros r Hne. cbn. rewrite pull_lte_0_In.
    destruct (has_checkout hw p); cbn; [| tauto].
    rewrite inc_first_other by assumption. tauto.
Qed.

Lemma check_in_pulls_every_nonpositive_record_witness :
  exists db' p',
    check_in "Arduino Uno" "p1" 2 3000 db_stale = (Committed, db') /\
    projectsDB db' !! "p1" = Some p' /\
    Project.hardware_checkouts p'
    = [mkCheckoutRecord "Arduino Uno" 3 1500 "john_doe";
       mkCheckoutRecord "Raspberry Pi" 4 1700 "john_doe"] /\
    ~ In (mkCheckoutRecord "DHT22 Sensors" 0 1600 "jane_smith")
         (Project.hardware_checkouts p').
Proof.
  destruct (check_in_pulls_every_nonpositive_record
              "Arduino Uno" "p1" 2 3000 db_stale
              (iot [mkCheckoutRecord "Arduino Uno" 5 1500 "john_doe";
                    mkCheckoutRecord "DHT22 Sensors" 0 1600 "jane_smith";
                    mkCheckoutRecord "Raspberry Pi" 4 1700 "john_doe"] 1700)
              eq_refl)
    as (db' & p' & Hrun & Hp' & Hpos & Hother).
  exists db', p'.
  split; [exact Hrun |]. split; [exact Hp' |].
  rewrite check_in_commits in Hrun.
  injection Hrun as <-.
  vm_compute in Hp'. injection Hp' as <-.
  split; [reflexivity |].
  intros Hin. apply Hpos in Hin. cbn in Hin. lia.
Defined.

(** ** The service layer *)

Section ServiceLayer.
Context {World : Type}.
Variable adapter : request -> World -> settled * World.

(** A truthy value is neither [null] nor [undefined]: its properties can
    be read. *)
Lemma get_truthy v k :
  truthy v = true -> exists x, get v k = Normal x.
Proof. destruct v; cbn; intros Ht; try discriminate; eauto. Qed.

(** The [catch] block returns the body of the error response when there
    is one and [connection_failure] otherwise. *)
Lemma on_error_readable error response w :
  get error "response" = Normal response ->
  exists v,
    on_error (World := World) error w = (Normal v, w) /\
    (v = connection_failure /\ no_response_body error
     \/ exists data,
          truthy response = true /\ get response "data" = Normal data /\
          truthy data = true /\ v = data).
Proof.
  intros Hget. unfold on_error, abind, lift, areturn. rewrite Hget.
  destruct (truthy response) eqn:Hresp.
  - destruct (get_truthy response "data" Hresp) as [data Hdata].
    rewrite Hdata. destruct (truthy data) eqn:Ht.
    + exists data. split; [reflexivity |]. right. exists data. auto.
    + exists connection_failure. split; [reflexivity |]. left.
      split; [reflexivity |].
      intros response' data' Hget' _ Hdata'. congruence.
  - exists connection_failure. split; [reflexivity |]. left.
    split; [reflexivity |].
    intros response' data' Hget' Hresp'. congruence.
Qed.

(** An error object without a [response], as a [TypeError] is. *)
Lemma on_error_TypeError message w :
  on_error (World := World) (new_TypeError message) w
  = (Normal connection_failure, w).
Proof. reflexivity. Qed.

Lemma get_throws v k e :
  get v k = Throw e -> exists message, e = new_TypeError message.
Proof. destruct v; cbn; intros [= <-]; eauto. Qed.

(** The error a request is rejected with has come through the response
    interceptor, which read its [response]. *)
Lemma service_answers r : answers adapter r (service (await_api adapter r)).
Proof.
  intros w. unfold service, try_catch, abind, await_api.
  destruct (adapter r w) as [[response|error] w']; cbn.
  - destruct (get response "data") as [data|e] eqn:Hdata; cbn.
    + exists data. split; [reflexivity |]. split; [reflexivity |].
      intros (data' & [= <-] & Hobj). exact Hobj.
    + destruct (get_throws _ _ _ Hdata) as [message ->].
      exists connection_failure.
      split; [first [reflexivity | apply on_error_TypeError] |]. split; reflexivity.
  - destruct (get error "response") as [response|e] eqn:Hresp; cbn.
    + destruct (on_error_readable error response w' Hresp)
        as (v & Hv & [[-> Hno] | (data & Hr & Hd & Ht & ->)]);
        eexists; (split; [exact Hv |]).
      * split; [split; [reflexivity |] | reflexivity].
        intros response' data' [= <-] Hr' Hd' Ht'.
        specialize (Hno _ _ Hresp Hr' Hd'). congruence.
      * split; [split |].
        -- intros Hno. specialize (Hno _ _ Hresp Hr Hd). congruence.
        -- intros response' data' [= <-] _ Hd' _. congruence.
        -- intros Hjson. exact (Hjson _ _ eq_refl Hr Hd Ht).
    + destruct (get_throws _ _ _ Hresp) as [message ->].
      exists connection_failure.
      split; [first [reflexivity | apply on_error_TypeError] |].
      split; [split; [reflexivity |] | reflexivity].
      intros response data Hget. congruence.
Qed.
End ServiceLayer.

(** C9, as stated, fails: what a function of the service returns need not be
    an object.  It returns the body as the server sent it: a page of HTML
    that comes with status 200, the [null] of an empty JSON body, and the
    text of an error page that comes with status 500 are returned as they
    are. *)
Lemma service_returns_the_body_unchecked :
  let page (r : request) (w : unit) :=
    (Resolved (JObj [("status", JNum 200); ("data", JStr "<!doctype html>")]),
     w) in
  let nothing (r : request) (w : unit) :=
    (Resolved (JObj [("status", JNum 200); ("data", JNull)]), w) in
  let failing (r : request) (w : unit) :=
    (Rejected
       (JObj [("response",
               JObj [("status", JNum 500);
                     ("data", JStr "Internal Server Error")])]),
     w) in
  getHardwareSets page tt = (Normal (JStr "<!doctype html>"), tt) /\
  is_object (JStr "<!doctype html>") = false /\
  getHardwareAvailability nothing (JStr "Arduino Uno") tt = (Normal JNull, tt) /\
  is_object JNull = false /\
  checkOutHardware failing (JStr "p1") (JStr "Arduino Uno") (JNum 5) tt
  = (Normal (JStr "Internal Server Error"), tt) /\
  is_object (JStr "Internal Server Error") = false.
Proof. repeat split; vm_compute; reflexivity. Qed.

(** C9, amended: the five functions of the hardware service complete
    normally whatever becomes of the request they send: no outcome of the
    request, a response or a failure, makes them throw.  Each returns the
    body of the response as the server sent it, or the body of the error
    response when that is truthy, or [{ success: false, error: 'Failed to
    connect to server' }] when the failed request has no response body or
    the response cannot be read; what is returned is an object whenever the
    bodies the server sends are.  The arguments are values the model
    writes and reads as JavaScript does. *)
Theorem hardware_service_total
    {World : Type} (adapter : request -> World -> settled * World)
    (projectId hwName quantity totalCapacity description : jsval) :
  exact_number hwName ->
  parses_exactly quantity ->
  parses_exactly totalCapacity ->
  answers adapter (mkRequest GET "/get_hardware_sets" JUndefined)
          (getHardwareSets adapter) /\
  answers adapter
          (mkRequest GET ("/get_hardware_availability/" ++ ToString hwName)
                     JUndefined)
          (getHardwareAvailability adapter hwName) /\
  answers adapter
          (mkRequest POST "/check_out"
             (JObj [("project_id", projectId); ("hw_name", hwName);
                    ("quantity", parseInt_val quantity)]))
          (checkOutHardware adapter projectId hwName quantity) /\
  answers adapter
          (mkRequest POST "/check_in"
             (JObj [("project_id", projectId); ("hw_name", hwName);
                    ("quantity", parseInt_val quantity)]))
          (checkInHardware adapter projectId hwName quantity) /\
  answers adapter
          (mkRequest POST "/create_hardware_set"
             (JObj [("hw_name", hwName);
                    ("total_capacity", parseInt_val totalCapacity);
                    ("description",
                     default_parameter description (JStr EmptyString))]))
          (createHardwareSet adapter hwName totalCapacity description).
Proof.
  intros _ _ _.
  do 4 (split; [exact (service_answers adapter _) |]).
  exact (service_answers adapter _).
Qed.

Lemma hardware_service_total_witness :
  answers recorder (mkRequest GET "/get_hardware_sets" JUndefined)
          (getHardwareSets recorder) /\
  answers recorder
          (mkRequest GET "/get_hardware_availability/Arduino Uno" JUndefined)
          (getHardwareAvailability recorder (JStr "Arduino Uno")) /\
  answers recorder
          (mkRequest POST "/check_out"
             (JObj [("project_id", JStr "p1"); ("hw_name", JStr "Arduino Uno");
                    ("quantity", parseInt_val (JStr "5.7"))]))
          (checkOutHardware recorder (JStr "p1") (JStr "Arduino Uno")
                            (JStr "5.7")) /\
  answers recorder
          (mkRequest POST "/check_in"
             (JObj [("project_id", JStr "p1"); ("hw_name", JStr "Arduino Uno");
                    ("quantity", parseInt_val (JStr "5.7"))]))
          (checkInHardware recorder (JStr "p1") (JStr "Arduino Uno")
                           (JStr "5.7")) /\
  answers recorder
          (mkRequest POST "/create_hardware_set"
             (JObj [("hw_name", JStr "Arduino Uno");
                    ("total_capacity", parseInt_val (JNum 50));
                    ("description",
                     default_parameter JUndefined (JStr EmptyString))]))
          (createHardwareSet recorder (JStr "Arduino Uno") (JNum 50) JUndefined).
Proof.
  apply (hardware_service_total recorder (JStr "p1") (JStr "Arduino Uno")
           (JStr "5.7") (JNum 50) JUndefined).
  - exact I.
  - split; [exact I |]. split.
    + intros s Hs. injection Hs as <-. reflexivity.
    + intros z Hz. vm_compute in Hz. injection Hz as <-.
      unfold safe_integer. vm_compute. reflexivity.
  - split; [unfold exact_number, safe_integer; vm_compute; reflexivity |]. split.
    + intros s Hs. discriminate.
    + intros z Hz. vm_compute in Hz. injection Hz as <-.
      unfold safe_integer. vm_compute. reflexivity.
Defined.

(** A server that cannot be reached: axios rejects with an error that has no
    [response]. *)
Example service_offline :
  let offline (r : request) (w : unit) :=
    (Rejected (JObj [("message", JStr "Network Error")]), w) in
  checkOutHardware offline (JStr "p1") (JStr "Arduino Uno") (JNum 5) tt
  = (Normal connection_failure, tt) /\
  getHardwareSets offline tt = (Normal connection_failure, tt).
Proof. split; vm_compute; reflexivity. Qed.

(** A server that answers 400 with a body: the body is what the caller
    gets. *)
Example service_bad_request :
  let body := JObj [("success", JBool false);
                    ("error", JStr "Insufficient hardware available")] in
  let refusing (r : request) (w : unit) :=
    (Rejected (JObj [("response", JObj [("status", JNum 400); ("data", body)])]),
     w) in
  checkOutHardware refusing (JStr "p1") (JStr "Arduino Uno") (JNum 5) tt
  = (Normal body, tt).
Proof. vm_compute. reflexivity. Qed.

(** ** The form handlers *)

(** The availability check of the checkout form: a quantity above the
    [available] the page shows is refused with the message of the server, and
    no request is sent; the comparison is strict. *)
Lemma handleCheckout_insufficient
    {World : Type} (adapter : request -> World -> settled * World)
    (p : Page.state) (w : World) (hardware : HardwareSet.t) (qty : Z) :
  Page.selectedProject p <> EmptyString ->
  Page.quantity p <> EmptyString ->
  parseInt (Page.quantity p) = Some qty ->
  0 < qty ->
  Page.selectedHardware p = Some hardware ->
  HardwareSet.available hardware < qty ->
  handleCheckout adapter p w
  = (Normal (setError (JStr "Insufficient hardware available") p), w).
Proof.
  intros Hproj Htext Hparse Hpos Hhw Hlt.
  unfold handleCheckout. cbn.
  apply String.eqb_neq in Hproj, Htext. rewrite Hproj, Htext, Hparse. cbn.
  destruct (Z.leb_spec qty 0); [lia |].
  rewrite Hhw.
  destruct (Z.ltb_spec (HardwareSet.available hardware) qty); [reflexivity | lia].
Qed.

Example handleCheckout_boundary :
  handleCheckout recorder (form "51") []
  = (Normal (setError (JStr "Insufficient hardware available") (form "51")), [])
  /\
  handleCheckout recorder (form "50") []
  = (Normal (Page.mk None EmptyString EmptyString (JStr EmptyString) true),
     [mkRequest POST "/check_out"
        (JObj [("project_id", JStr "p1"); ("hw_name", JStr "Arduino Uno");
               ("quantity", JNum 50)])]).
Proof. split; vm_compute; reflexivity. Qed.

(** C7, as stated, fails.  The service layer and the transactions refuse no
    quantity: [checkOutHardware] sends a quantity of 0 and of -3 as they
    are, a checkout of 0 units commits and writes a record of 0 units to the
    ledger, and a checkout of -3 units commits and moves the counters.  The
    form handlers do not refuse [5.7]: [parseInt] makes 5 of it, and both
    send the request with quantity 5. *)
Lemma invalid_quantity_is_not_rejected :
  checkOutHardware recorder (JStr "p1") (JStr "Arduino Uno") (JNum 0) []
  = (Normal (JObj [("success", JBool true)]),
     [mkRequest POST "/check_out"
        (JObj [("project_id", JStr "p1"); ("hw_name", JStr "Arduino Uno");
               ("quantity", JNum 0)])]) /\
  checkInHardware recorder (JStr "p1") (JStr "Arduino Uno") (JNum (-3)) []
  = (Normal (JObj [("success", JBool true)]),
     [mkRequest POST "/check_in"
        (JObj [("project_id", JStr "p1"); ("hw_name", JStr "Arduino Uno");
               ("quantity", JNum (-3))])]) /\
  (exists db',
     checkout "Arduino Uno" "p1" "john_doe" 0 2000 db0 = (Committed, db') /\
     Project.hardware_checkouts <$> projectsDB db' !! "p1"
     = Some [mkCheckoutRecord "Arduino Uno" 0 2000 "john_doe"]) /\
  (exists db' h',
     checkout "Arduino Uno" "p1" "john_doe" (-3) 2000 db0 = (Committed, db') /\
     hardwareDB db' !! "Arduino Uno" = Some h' /\
     (Hardware.available h', Hardware.checked_out h') = (53, -3)) /\
  parseInt "5.7" = Some 5 /\
  handleCheckout recorder (form "5.7") []
  = (Normal (Page.mk None EmptyString EmptyString (JStr EmptyString) true),
     [mkRequest POST "/check_out"
        (JObj [("project_id", JStr "p1"); ("hw_name", JStr "Arduino Uno");
               ("quantity", JNum 5)])]) /\
  handleCheckin recorder (form "5.7") []
  = (Normal (Page.mk None EmptyString EmptyString (JStr EmptyString) true),
     [mkRequest POST "/check_in"
        (JObj [("project_id", JStr "p1"); ("hw_name", JStr "Arduino Uno");
               ("quantity", JNum 5)])]).
Proof.
  split; [vm_compute; reflexivity |].
  split; [vm_compute; reflexivity |].
  split; [eexists; split; vm_compute; reflexivity |].
  split; [do 2 eexists; repeat split; vm_compute; reflexivity |].
  repeat split; vm_compute; reflexivity.
Qed.

(** C7, amended: a quantity of the form that [parseInt] reads as [NaN] or as
    a number that is not positive is refused by both handlers before any
    request is sent.  Whatever the server, the world behind it is as it was
    and the handler only sets the error message of the page: to 'Please
    select a project and enter quantity' when the project or the quantity is
    empty, and to 'Please enter a valid quantity' otherwise. *)
Theorem handlers_refuse_invalid_quantity
    {World : Type} (adapter : request -> World -> settled * World)
    (p : Page.state) (w : World) :
  refused_quantity (Page.quantity p) ->
  (Page.selectedProject p = EmptyString \/ Page.quantity p = EmptyString ->
   handleCheckout adapter p w
   = (Normal (setError (JStr "Please select a project and enter quantity") p),
      w) /\
   handleCheckin adapter p w
   = (Normal (setError (JStr "Please select a project and enter quantity") p),
      w)) /\
  (Page.selectedProject p <> EmptyString ->
   Page.quantity p <> EmptyString ->
   handleCheckout adapter p w
   = (Normal (setError (JStr "Please enter a valid quantity") p), w) /\
   handleCheckin adapter p w
   = (Normal (setError (JStr "Please enter a valid quantity") p), w)).
Proof.
  unfold refused_quantity, handleCheckout, handleCheckin. cbn.
  intros Hq. split.
  - intros Hempty.
    assert (Htest : String.eqb (Page.selectedProject p) EmptyString
                    || String.eqb (Page.quantity p) EmptyString = true).
    { destruct Hempty as [-> | ->]; cbn; [reflexivity | apply orb_true_r]. }
    rewrite Htest. split; reflexivity.
  - intros Hproj Htext. apply String.eqb_neq in Hproj, Htext.
    rewrite Hproj, Htext. cbn [orb].
    destruct (parseInt (Page.quantity p)) as [qty|].
    + destruct (Z.leb_spec qty 0); [| lia]. split; reflexivity.
    + split; reflexivity.
Qed.

Lemma handlers_refuse_invalid_quantity_witness :
  (handleCheckout recorder (form "-3") []
   = (Normal (setError (JStr "Please enter a valid quantity") (form "-3")), [])
   /\
   handleCheckin recorder (form "-3") []
   = (Normal (setError (JStr "Please enter a valid quantity") (form "-3")), []))
  /\
  (handleCheckout recorder (form EmptyString) []
   = (Normal (setError (JStr "Please select a project and enter quantity")
                       (form EmptyString)), [])
   /\
   handleCheckin recorder (form EmptyString) []
   = (Normal (setError (JStr "Please select a project and enter quantity")
                       (form EmptyString)), [])).
Proof.
  split.
  - apply (handlers_refuse_invalid_quantity recorder (form "-3") []).
    + vm_compute. discriminate.
    + discriminate.
    + discriminate.
  - apply (handlers_refuse_invalid_quantity recorder (form EmptyString) []).
    + exact I.
    + right. reflexivity.
Defined.

(** What the handlers make of the quantities of the claim. *)
Example quantities_of_the_form :
  refused_quantity "0" /\ refused_quantity "-3" /\ refused_quantity "abc" /\
  refused_quantity "0.7" /\ ~ refused_quantity "5.7".
Proof.
  unfold refused_quantity. repeat split; try (vm_compute; congruence).
Qed.

(** * Further properties of the transactions *)

(** ** What a transaction leaves alone *)

(** X1: a checkout, committed or aborted, changes no hardware set but the one
    it names and no project but the one it names. *)
Theorem checkout_frame
    (hw projectId username : string) (requestedQty now : Z) (db : DB)
    (hw' projectId' : string) :
  hw' <> hw ->
  projectId' <> projectId ->
  hardwareDB (checkout hw projectId username requestedQty now db).2 !! hw'
  = hardwareDB db !! hw' /\
  projectsDB (checkout hw projectId username requestedQty now db).2 !! projectId'
  = projectsDB db !! projectId'.
Proof.
  intros Hhw Hp.
  destruct (checkout hw projectId username requestedQty now db) as [[|e] db']
    eqn:Hrun.
  - apply checkout_committed in Hrun as (h & _ & _ & ->). cbn.
    rewrite !lookup_alter_ne by congruence. split; reflexivity.
  - apply checkout_aborted in Hrun as ->. split; reflexivity.
Qed.

Lemma checkout_frame_witness :
  hardwareDB (checkout "Arduino Uno" "p1" "john_doe" 5 2000 db_two).2
    !! "Raspberry Pi"
  = hardwareDB db_two !! "Raspberry Pi" /\
  projectsDB (checkout "Arduino Uno" "p1" "john_doe" 5 2000 db_two).2 !! "p2"
  = projectsDB db_two !! "p2".
Proof.
  apply (checkout_frame "Arduino Uno" "p1" "john_doe" 5 2000 db_two
           "Raspberry Pi" "p2").
  - discriminate.
  - discriminate.
Defined.

(** X2: a check-in changes no hardware set but the one it names and no
    project but the one it names. *)
Theorem check_in_frame
    (hw projectId : string) (returnQty now : Z) (db : DB)
    (hw' projectId' : string) :
  hw' <> hw ->
  projectId' <> projectId ->
  hardwareDB (check_in hw projectId returnQty now db).2 !! hw'
  = hardwareDB db !! hw' /\
  projectsDB (check_in hw projectId returnQty now db).2 !! projectId'
  = projectsDB db !! projectId'.
Proof.
  intros Hhw Hp. rewrite check_in_commits. cbn.
  rewrite !lookup_alter_ne by congruence. split; reflexivity.
Qed.

Lemma check_in_frame_witness :
  hardwareDB (check_in "Arduino Uno" "p1" 5 2000 db_two).2 !! "Raspberry Pi"
  = hardwareDB db_two !! "Raspberry Pi" /\
  projectsDB (check_in "Arduino Uno" "p1" 5 2000 db_two).2 !! "p2"
  = projectsDB db_two !! "p2".
Proof.
  apply (check_in_frame "Arduino Uno" "p1" 5 2000 db_two "Raspberry Pi" "p2").
  - discriminate.
  - discriminate.
Defined.

(** ** Names the database does not know *)

(** X3: a checkout of a hardware set that is not in [hardwareDB] aborts on
    the [null] the lookup returns, with a [TypeError] and not with the error
    of the availability check, and writes nothing. *)
Theorem checkout_unknown_hardware
    (hw projectId username : string) (requestedQty now : Z) (db : DB) :
  hardwareDB db !! hw = None ->
  exists msg,
    checkout hw projectId username requestedQty now db
    = (Aborted (TypeError msg), db) /\
    TypeError msg <> InsufficientAvailability.
Proof.
  intros Hnone.
  destruct (checkout_not_found hw projectId username now requestedQty db Hnone)
    as [msg Hmsg].
  exists msg. split; [exact Hmsg | discriminate].
Qed.

Lemma checkout_unknown_hardware_witness :
  exists msg,
    checkout "Oscilloscope" "p1" "john_doe" 1 2000 db0
    = (Aborted (TypeError msg), db0) /\
    TypeError msg <> InsufficientAvailability.
Proof.
  apply (checkout_unknown_hardware "Oscilloscope" "p1" "john_doe" 1 2000 db0).
  reflexivity.
Defined.

(** X4: a checkout for a project that is not in [projectsDB] commits all the
    same: the counters of the hardware set move by the requested quantity
    and no ledger records it. *)
Theorem checkout_unknown_project
    (hw projectId username : string) (requestedQty now : Z) (db : DB)
    (h : Hardware.doc) :
  hardwareDB db !! hw = Some h ->
  requestedQty <= Hardware.available h ->
  projectsDB db !! projectId = None ->
  exists db' h',
    checkout hw projectId username requestedQty now db = (Committed, db') /\
    projectsDB db' = projectsDB db /\
    hardwareDB db' !! hw = Some h' /\
    Hardware.available h' = Hardware.available h - requestedQty /\
    Hardware.checked_out h' = Hardware.checked_out h + requestedQty.
Proof.
  intros Hh Hle Hp.
  do 2 eexists.
  split; [apply checkout_sufficient with (h := h); assumption |].
  split; [cbn; apply alter_id'; assumption |].
  split; [cbn; rewrite lookup_alter_eq, Hh; reflexivity |].
  cbn. lia.
Qed.

Lemma checkout_unknown_project_witness :
  exists db' h',
    checkout "Arduino Uno" "p9" "john_doe" 5 2000 db0 = (Committed, db') /\
    projectsDB db' = projectsDB db0 /\
    hardwareDB db' !! "Arduino Uno" = Some h' /\
    Hardware.available h' = 50 - 5 /\
    Hardware.checked_out h' = 0 + 5.
Proof.
  apply (checkout_unknown_project "Arduino Uno" "p9" "john_doe" 5 2000 db0
           (arduino 50 0)).
  - reflexivity.
  - cbn. lia.
  - reflexivity.
Defined.

(** X5: a check-in that names a hardware set and a project the database does
    not know commits and changes nothing. *)
Theorem check_in_unknown_names
    (hw projectId : string) (returnQty now : Z) (db : DB) :
  hardwareDB db !! hw = None ->
  projectsDB db !! projectId = None ->
  check_in hw projectId returnQty now db = (Committed, db).
Proof.
  intros Hh Hp. rewrite check_in_commits. unfold check_in_writes.
  rewrite !alter_id' by assumption. destruct db; reflexivity.
Qed.

Lemma check_in_unknown_names_witness :
  check_in "Oscilloscope" "p9" 3 2000 db0 = (Committed, db0).
Proof.
  apply (check_in_unknown_names "Oscilloscope" "p9" 3 2000 db0).
  - reflexivity.
  - reflexivity.
Defined.

(** ** The counters over a run of transactions *)

Lemma perform_keeps_balance op db :
  all_balanced db -> all_balanced (perform op db).2.
Proof.
  intros Hdb. destruct op as [hw p u q t | hw p q t]; unfold perform.
  - destruct (checkout hw p u q t db) as [o db'] eqn:Hrun.
    exact (checkout_keeps_balance _ _ _ _ _ _ _ _ Hdb Hrun).
  - destruct (check_in hw p q t db) as [o db'] eqn:Hrun.
    exact (check_in_keeps_balance _ _ _ _ _ _ _ Hdb Hrun).
Qed.

Lemma db0_valid : all_valid db0.
Proof.
  intros hw h Hh. unfold db0 in Hh. cbn in Hh.
  apply lookup_singleton_Some in Hh as [_ <-].
  unfold Hardware.valid, Hardware.bounds, Hardware.balanced. cbn. lia.
Qed.

Lemma valid_balanced db : all_valid db -> all_balanced db.
Proof. intros Hdb hw h Hh. exact (proj2 (Hdb hw h Hh)). Qed.

(** X6: whatever transactions are run, and whatever their outcomes, the sum
    of the two counters stays the capacity, as long as the counters and the
    quantities stay integers a [Number] holds exactly: from a database whose
    hardware sets all satisfy [available + checked_out = total_capacity],
    every such run of checkouts and check-ins, of negative quantities and of
    returns of more than is checked out too, ends in such a database. *)
Theorem perform_all_keeps_balance (ops : list operation) (db : DB) :
  all_balanced db ->
  all_exact_counters ops db ->
  all_balanced (perform_all ops db).
Proof.
  revert db. induction ops as [|op rest IH]; intros db Hdb Hexact; cbn.
  - assumption.
  - destruct Hexact as [_ Hrest].
    apply IH; [apply perform_keeps_balance, Hdb | exact Hrest].
Qed.

Lemma perform_all_keeps_balance_witness :
  all_balanced
    (perform_all [Checkout "Arduino Uno" "p1" "john_doe" (-3) 2000;
                  CheckIn "Arduino Uno" "p1" 70 3000;
                  Checkout "Arduino Uno" "p1" "john_doe" 5 4000] db0).
Proof.
  apply (perform_all_keeps_balance
           [Checkout "Arduino Uno" "p1" "john_doe" (-3) 2000;
            CheckIn "Arduino Uno" "p1" 70 3000;
            Checkout "Arduino Uno" "p1" "john_doe" 5 4000] db0).
  - apply valid_balanced, db0_valid.
  - cbn [all_exact_counters exact_counters].
    do 3 (split;
          [intros h Hh; vm_compute in Hh; injection Hh as <-; cbn; lia |]).
    exact I.
Defined.

Lemma perform_keeps_valid op db :
  within_counters op db -> all_valid db -> all_valid (perform op db).2.
Proof.
  intros Hop Hdb.
  destruct op as [hw p u q t | hw p q t]; unfold perform, within_counters in *.
  - destruct (checkout hw p u q t db) as [o db'] eqn:Hrun.
    exact (checkout_keeps_valid _ _ _ _ _ _ _ _ Hop Hdb Hrun).
  - destruct Hop as [Hq Hout].
    destruct (hardwareDB db !! hw) as [h|] eqn:Hh.
    + destruct (check_in hw p q t db) as [o db'] eqn:Hrun.
      refine (check_in_keeps_valid _ _ _ _ _ _ _ h Hh _ Hdb Hrun).
      split; [assumption | apply Hout; reflexivity].
    + rewrite check_in_commits. cbn.
      intros hw' h'. cbn. rewrite alter_id' by assumption. apply Hdb.
Qed.

(** X7: the counters stay in range over a run in which no quantity is
    negative and every check-in returns at most what the hardware set has
    checked out at that moment: from a database whose hardware sets are all
    valid, such a run ends in one. *)
Theorem perform_all_keeps_valid (ops : list operation) (db : DB) :
  all_valid db ->
  all_within_counters ops db ->
  all_valid (perform_all ops db).
Proof.
  revert db. induction ops as [|op rest IH]; intros db Hdb Hops; cbn.
  - assumption.
  - destruct Hops as [Hop Hrest].
    apply IH; [apply perform_keeps_valid; assumption | assumption].
Qed.

Lemma perform_all_keeps_valid_witness :
  all_valid
    (perform_all [Checkout "Arduino Uno" "p1" "john_doe" 5 2000;
                  Checkout "Arduino Uno" "p1" "jane_smith" 60 2500;
                  CheckIn "Arduino Uno" "p1" 5 3000] db0).
Proof.
  apply (perform_all_keeps_valid
           [Checkout "Arduino Uno" "p1" "john_doe" 5 2000;
            Checkout "Arduino Uno" "p1" "jane_smith" 60 2500;
            CheckIn "Arduino Uno" "p1" 5 3000] db0).
  - apply db0_valid.
  - cbn. repeat split; try lia.
    intros h Hh. vm_compute in Hh. injection Hh as <-. cbn. lia.
Defined.

(** ** What the ledger says a project holds *)

Lemma held_app hw l1 l2 : held hw (l1 ++ l2) = held hw l1 + held hw l2.
Proof. induction l1 as [|r l1 IH]; cbn; [reflexivity | rewrite IH; lia]. Qed.

(** Pulling the records of no units leaves what is held as it is. *)
Lemma held_pull hw l :
  Forall (fun r => 0 <= quantity r) l -> held hw (pull_lte_0 l) = held hw l.
Proof.
  unfold pull_lte_0.
  induction 1 as [|r l Hr _ IH]; cbn [List.filter held]; [reflexivity |].
  destruct (Z.leb_spec (quantity r) 0); cbn [negb held]; rewrite IH;
    [| reflexivity].
  case_bool_decide; lia.
Qed.

Lemma pull_positive l :
  Forall (fun r => 0 < quantity r) l -> pull_lte_0 l = l.
Proof.
  unfold pull_lte_0.
  induction 1 as [|r l Hr _ IH]; cbn [List.filter]; [reflexivity |].
  destruct (Z.leb_spec (quantity r) 0); cbn [negb];
    [lia | rewrite IH; reflexivity].
Qed.

Lemma has_checkout_first hw p :
  has_checkout hw p = true <->
  exists r, first_checkout hw (Project.hardware_checkouts p) = Some r.
Proof.
  unfold has_checkout, first_checkout.
  induction (Project.hardware_checkouts p) as [|a l IH]; cbn.
  - split; [discriminate | intros [r Hr]; discriminate].
  - case_bool_decide; cbn; [split; eauto | exact IH].
Qed.

Lemma first_checkout_name hw l r :
  first_checkout hw l = Some r -> hw_name r = hw.
Proof.
  unfold first_checkout. intros Hfind. apply List.find_some in Hfind as [_ Hr].
  apply bool_decide_eq_true in Hr. exact Hr.
Qed.

(** The positional [$inc] moves what is held of its hardware set by [d] and
    of any other by nothing. *)
Lemma held_inc_first hw d l r hw' :
  first_checkout hw l = Some r ->
  held hw' (inc_first hw d l)
  = held hw' l + (if bool_decide (hw = hw') then d else 0).
Proof.
  unfold first_checkout.
  induction l as [|a l IH]; cbn [List.find inc_first held]; [discriminate |].
  destruct (decide (hw_name a = hw)) as [Ha|Ha].
  - rewrite (bool_decide_eq_true_2 _ Ha). intros _. cbn [held hw_name quantity].
    destruct (decide (hw = hw')) as [Heq|Hne].
    + rewrite !bool_decide_eq_true_2 by congruence. lia.
    + rewrite !bool_decide_eq_false_2 by congruence. lia.
  - rewrite (bool_decide_eq_false_2 _ Ha). intros Hfind. cbn [held].
    rewrite (IH Hfind). lia.
Qed.

Lemma inc_first_quantities hw d l r (P : Z -> Prop) :
  first_checkout hw l = Some r ->
  Forall (fun x => P (quantity x)) l ->
  P (quantity r + d) ->
  Forall (fun x => P (quantity x)) (inc_first hw d l).
Proof.
  unfold first_checkout. intros Hfind Hall Hr.
  induction Hall as [|a l Ha Hl IH]; cbn in *; [discriminate |].
  case_bool_decide.
  - injection Hfind as <-. constructor; [exact Hr | exact Hl].
  - constructor; [exact Ha | exact (IH Hfind)].
Qed.

(** X8: a checkout that commits for a project of the database adds the
    requested quantity to what the project's ledger holds of the hardware
    set, and nothing to what it holds of any other. *)
Theorem checkout_adds_to_held
    (hw projectId username : string) (requestedQty now : Z) (db db' : DB)
    (p : Project.doc) (hw' : string) :
  checkout hw projectId username requestedQty now db = (Committed, db') ->
  projectsDB db !! projectId = Some p ->
  exists p',
    projectsDB db' !! projectId = Some p' /\
    held hw' (Project.hardware_checkouts p')
    = held hw' (Project.hardware_checkouts p)
      + (if bool_decide (hw = hw') then requestedQty else 0).
Proof.
  intros Hrun Hp.
  apply checkout_committed in Hrun as (h & _ & _ & ->).
  eexists. split; [cbn; rewrite lookup_alter_eq, Hp; reflexivity |].
  cbn. rewrite held_app. cbn. lia.
Qed.

Lemma checkout_adds_to_held_witness :
  exists p',
    projectsDB (checkout_writes "Arduino Uno" "p1" "jane_smith" 3 3000 db_held)
      !! "p1" = Some p' /\
    held "Arduino Uno" (Project.hardware_checkouts p') = 10 + 3.
Proof.
  apply (checkout_adds_to_held "Arduino Uno" "p1" "jane_smith" 3 3000 db_held
           (checkout_writes "Arduino Uno" "p1" "jane_smith" 3 3000 db_held)
           (iot [mkCheckoutRecord "Arduino Uno" 10 1500 "john_doe"] 1500)
           "Arduino Uno").
  - vm_compute. reflexivity.
  - vm_compute. reflexivity.
Defined.

(** What the second and third step of a check-in make of what is held. *)
Lemma held_pull_inc_first hw returnQty l r hw' :
  Forall (fun x => 0 < quantity x) l ->
  first_checkout hw l = Some r ->
  held hw' (pull_lte_0 (inc_first hw (- returnQty) l))
  = held hw' l
    - (if bool_decide (hw = hw') then Z.min returnQty (quantity r) else 0).
Proof.
  intros Hpos Hfirst.
  destruct (Z.le_gt_cases returnQty (quantity r)) as [Hle|Hgt].
  - rewrite held_pull.
    + rewrite (held_inc_first hw (- returnQty) _ r hw' Hfirst).
      case_bool_decide; lia.
    + apply (inc_first_quantities hw (- returnQty) _ r (fun q => 0 <= q) Hfirst);
        [| lia].
      eapply Forall_impl; [exact Hpos | cbn; intros; lia].
  - revert Hpos Hfirst. unfold first_checkout.
    induction l as [|a l IH]; cbn [List.find inc_first held]; [discriminate |].
    intros Hpos Hfind. apply Forall_cons in Hpos as [Ha Hl].
    destruct (decide (hw_name a = hw)) as [Hname|Hname].
    + rewrite (bool_decide_eq_true_2 _ Hname) in Hfind |- *.
      injection Hfind as <-. unfold pull_lte_0. cbn [List.filter quantity].
      destruct (Z.leb_spec (quantity a + - returnQty) 0); [| lia]. cbn [negb].
      fold (pull_lte_0 l). rewrite pull_positive by exact Hl.
      destruct (decide (hw = hw')) as [Heq|Hne].
      * rewrite !bool_decide_eq_true_2 by congruence. lia.
      * rewrite !bool_decide_eq_false_2 by congruence. lia.
    + rewrite (bool_decide_eq_false_2 _ Hname) in Hfind |- *.
      unfold pull_lte_0. cbn [List.filter].
      destruct (Z.leb_spec (quantity a) 0); [lia |]. cbn [negb held].
      fold (pull_lte_0 (inc_first hw (- returnQty) l)).
      rewrite (IH Hl Hfind). lia.
Qed.

(** X9: a check-in takes the returned quantity off the first record of the
    hardware set only.  On a ledger of positive quantities, what the project
    holds of the hardware set goes down by the returned quantity when the
    first record has that much, and by the quantity of the first record, which
    is then dropped, when it has less; what it holds of any other hardware
    set is as before. *)
Theorem check_in_takes_from_first_record
    (hw projectId : string) (returnQty now : Z) (db : DB) (p : Project.doc)
    (r : CheckoutRecord) (hw' : string) :
  projectsDB db !! projectId = Some p ->
  Forall (fun x => 0 < quantity x) (Project.hardware_checkouts p) ->
  first_checkout hw (Project.hardware_checkouts p) = Some r ->
  exists p',
    projectsDB (check_in hw projectId returnQty now db).2 !! projectId = Some p' /\
    held hw' (Project.hardware_checkouts p')
    = held hw' (Project.hardware_checkouts p)
      - (if bool_decide (hw = hw') then Z.min returnQty (quantity r) else 0).
Proof.
  intros Hp Hpos Hfirst.
  rewrite check_in_commits.
  exists (check_in_ledger hw returnQty now p).
  split; [cbn; rewrite lookup_alter_eq, Hp; reflexivity |].
  unfold check_in_ledger.
  rewrite (proj2 (has_checkout_first hw p)) by eauto.
  cbn [Project.hardware_checkouts Project.set_hardware_checkouts
       Project.set_updated_at].
  apply held_pull_inc_first; assumption.
Qed.

Lemma check_in_takes_from_first_record_witness :
  exists p',
    projectsDB (check_in "Arduino Uno" "p1" 8 4000 db_twice).2 !! "p1" = Some p' /\
    held "Arduino Uno" (Project.hardware_checkouts p') = (5 + 3) - Z.min 8 5.
Proof.
  apply (check_in_takes_from_first_record "Arduino Uno" "p1" 8 4000 db_twice
           (iot [mkCheckoutRecord "Arduino Uno" 5 2000 "john_doe";
                 mkCheckoutRecord "Arduino Uno" 3 3000 "jane_smith"] 3000)
           (mkCheckoutRecord "Arduino Uno" 5 2000 "john_doe") "Arduino Uno").
  - reflexivity.
  - repeat constructor.
  - reflexivity.
Defined.

(** A record pushed behind records of other hardware sets is the first of
    its own; returning its quantity drops it again. *)
Lemma pull_inc_first_pushed hw q t u l :
  first_checkout hw l = None ->
  Forall (fun x => 0 < quantity x) l ->
  pull_lte_0 (inc_first hw (- q) (l ++ [mkCheckoutRecord hw q t u])) = l.
Proof.
  unfold first_checkout, pull_lte_0.
  induction l as [|a l IH]; cbn [app inc_first List.find hw_name].
  - intros _ _. rewrite bool_decide_eq_true_2 by reflexivity.
    cbn [List.filter quantity].
    destruct (Z.leb_spec (q + - q) 0); [reflexivity | lia].
  - destruct (decide (hw_name a = hw)) as [Ha|Ha].
    + rewrite (bool_decide_eq_true_2 _ Ha). discriminate.
    + rewrite (bool_decide_eq_false_2 _ Ha). intros Hfind Hall.
      apply Forall_cons in Hall as [Hpos Hl]. cbn [List.filter].
      destruct (Z.leb_spec (quantity a) 0); [lia |]. cbn [negb].
      rewrite (IH Hfind Hl). reflexivity.
Qed.

(** X10: for a project that holds no record of the hardware set and whose
    records all have positive quantities, a checkout followed by a check-in
    of the same quantity leaves the ledger with the records it had. *)
Theorem checkout_then_check_in_restores_ledger
    (hw projectId username : string) (q t1 t2 : Z) (db : DB)
    (h : Hardware.doc) (p : Project.doc) :
  hardwareDB db !! hw = Some h ->
  q <= Hardware.available h ->
  projectsDB db !! projectId = Some p ->
  first_checkout hw (Project.hardware_checkouts p) = None ->
  Forall (fun x => 0 < quantity x) (Project.hardware_checkouts p) ->
  exists db1 db2 p2,
    checkout hw projectId username q t1 db = (Committed, db1) /\
    check_in hw projectId q t2 db1 = (Committed, db2) /\
    projectsDB db2 !! projectId = Some p2 /\
    Project.hardware_checkouts p2 = Project.hardware_checkouts p.
Proof.
  intros Hh Hle Hp Hnone Hpos.
  do 3 eexists.
  split; [apply checkout_sufficient with (h := h); assumption |].
  split; [apply check_in_commits |].
  split; [cbn; rewrite !lookup_alter_eq, Hp; reflexivity |].
  unfold check_in_ledger, has_checkout, push.
  cbn [Project.hardware_checkouts Project.set_hardware_checkouts
       Project.set_updated_at].
  rewrite existsb_app. cbn [existsb hw_name].
  rewrite bool_decide_eq_true_2 by reflexivity. rewrite !orb_true_r.
  cbn [Project.hardware_checkouts Project.set_hardware_checkouts
       Project.set_updated_at].
  apply pull_inc_first_pushed; assumption.
Qed.

Lemma checkout_then_check_in_restores_ledger_witness :
  exists db1 db2 p2,
    checkout "Arduino Uno" "p2" "bob_wilson" 7 2000 db_two = (Committed, db1) /\
    check_in "Arduino Uno" "p2" 7 3000 db1 = (Committed, db2) /\
    projectsDB db2 !! "p2" = Some p2 /\
    Project.hardware_checkouts p2
    = [mkCheckoutRecord "Raspberry Pi" 4 1700 "bob_wilson"].
Proof.
  apply (checkout_then_check_in_restores_ledger
           "Arduino Uno" "p2" "bob_wilson" 7 2000 3000 db_two (arduino 40 10)
           (Project.mk "Robot Arm" EmptyString "bob_wilson" ["bob_wilson"]
              [mkCheckoutRecord "Raspberry Pi" 4 1700 "bob_wilson"] 950 1700)).
  - reflexivity.
  - cbn. lia.
  - reflexivity.
  - reflexivity.
  - repeat constructor.
Defined.

(** X11: served one after the other, one-unit checkouts of a hardware set
    commit as often as there are units available and no more often: with [K]
    units available and [N] callers, [min K N] checkouts commit, and the
    hardware set ends with that many units less available and more checked
    out. *)
Theorem serial_checkouts_commit_min
    (hw : string) (now : Z) (callers : list (string * string)) (db : DB)
    (h : Hardware.doc) :
  hardwareDB db !! hw = Some h ->
  0 <= Hardware.available h ->
  exists h',
    hardwareDB (reserve_each hw now callers db).2 !! hw = Some h' /\
    Z.of_nat (reserve_each hw now callers db).1
    = Z.min (Hardware.available h) (Z.of_nat (length callers)) /\
    Hardware.available h'
    = Hardware.available h - Z.of_nat (reserve_each hw now callers db).1 /\
    Hardware.checked_out h'
    = Hardware.checked_out h + Z.of_nat (reserve_each hw now callers db).1.
Proof.
  intros Hh Hav.
  destruct (reserve_each_serial hw now callers db h Hh Hav)
    as (h' & Hh' & Hk & Ha & Hc & _).
  exists h'. auto.
Qed.

Lemma serial_checkouts_commit_min_witness :
  exists h',
    hardwareDB (reserve_each "Arduino Uno" 2000
                  [("p1", "john_doe"); ("p2", "bob_wilson"); ("p1", "jane_smith")]
                  db_last).2 !! "Arduino Uno" = Some h' /\
    Z.of_nat (reserve_each "Arduino Uno" 2000
                [("p1", "john_doe"); ("p2", "bob_wilson"); ("p1", "jane_smith")]
                db_last).1 = Z.min 2 3 /\
    Hardware.available h' = 2 - 2 /\
    Hardware.checked_out h' = 48 + 2.
Proof.
  destruct (serial_checkouts_commit_min "Arduino Uno" 2000
              [("p1", "john_doe"); ("p2", "bob_wilson"); ("p1", "jane_smith")]
              db_last (arduino 2 48) eq_refl)
    as (h' & Hh' & Hk & Ha & Hc); [cbn; lia |].
  exists h'. vm_compute in Hk. vm_compute in Hh'. injection Hh' as <-.
  repeat split.
Defined.

(** ** Ledgers and counters together *)

(** An update of one project moves the total by what it moves the project's
    own holding. *)
Lemma total_held_alter hw f projectId (projects : gmap string Project.doc) p :
  projects !! projectId = Some p ->
  total_held hw (alter f projectId projects)
  = total_held hw projects
    - held hw (Project.hardware_checkouts p)
    + held hw (Project.hardware_checkouts (f p)).
Proof.
  intros Hp. unfold total_held.
  assert (Hcomm : forall (j1 j2 : string) (z1 z2 : Project.doc) (y : Z),
             held hw (Project.hardware_checkouts z1)
             + (held hw (Project.hardware_checkouts z2) + y)
             = held hw (Project.hardware_checkouts z2)
               + (held hw (Project.hardware_checkouts z1) + y)) by (intros; lia).
  rewrite (map_fold_delete_L _ 0 projectId p projects); [| auto | exact Hp].
  rewrite (map_fold_delete_L _ 0 projectId (f p) (alter f projectId projects));
    [| auto | rewrite lookup_alter_eq, Hp; reflexivity].
  replace (delete projectId (alter f projectId projects))
    with (delete projectId projects).
  - lia.
  - apply map_eq. intros j. destruct (decide (j = projectId)) as [->|Hne].
    + rewrite !lookup_delete_eq. reflexivity.
    + rewrite !lookup_delete_ne, lookup_alter_ne by congruence. reflexivity.
Qed.

(** X12: a checkout for a project of the database keeps the ledgers and the
    counters in step: if every hardware set's [checked_out] is the sum of
    what the ledgers of all projects hold of it, it is so after the
    checkout, committed or aborted. *)
Theorem checkout_keeps_ledgers_agreeing
    (hw projectId username : string) (requestedQty now : Z) (db : DB)
    (p : Project.doc) :
  projectsDB db !! projectId = Some p ->
  ledgers_agree db ->
  ledgers_agree (checkout hw projectId username requestedQty now db).2.
Proof.
  intros Hp Hdb.
  destruct (checkout hw projectId username requestedQty now db) as [[|e] db']
    eqn:Hrun.
  - apply checkout_committed in Hrun as (h & Hh & _ & ->).
    intros hw' h'. cbn.
    rewrite (total_held_alter hw' _ projectId _ p Hp). cbn.
    rewrite held_app. cbn [held hw_name quantity].
    rewrite lookup_alter_Some.
    intros [(<- & x & Hx & ->) | (Hne & Hx)].
    + cbn. rewrite (Hdb _ _ Hx).
      rewrite bool_decide_eq_true_2 by reflexivity. lia.
    + rewrite (Hdb _ _ Hx).
      rewrite bool_decide_eq_false_2 by congruence. lia.
  - apply checkout_aborted in Hrun as ->. exact Hdb.
Qed.

Lemma db_held_agrees : ledgers_agree db_held.
Proof.
  intros hw h Hh. unfold db_held in *. cbn in *.
  apply lookup_singleton_Some in Hh as [<- <-].
  unfold total_held. rewrite map_fold_singleton. reflexivity.
Qed.

Lemma checkout_keeps_ledgers_agreeing_witness :
  ledgers_agree (checkout "Arduino Uno" "p1" "jane_smith" 3 3000 db_held).2.
Proof.
  apply (checkout_keeps_ledgers_agreeing "Arduino Uno" "p1" "jane_smith" 3 3000
           db_held (iot [mkCheckoutRecord "Arduino Uno" 10 1500 "john_doe"] 1500)).
  - reflexivity.
  - exact db_held_agrees.
Defined.

(** X13: a check-in keeps the ledgers and the counters in step when the
    project's records all have positive quantities and the first record of
    the hardware set in its ledger holds at least the returned quantity. *)
Theorem check_in_keeps_ledgers_agreeing
    (hw projectId : string) (returnQty now : Z) (db : DB) (p : Project.doc)
    (r : CheckoutRecord) :
  projectsDB db !! projectId = Some p ->
  Forall (fun x => 0 < quantity x) (Project.hardware_checkouts p) ->
  first_checkout hw (Project.hardware_checkouts p) = Some r ->
  returnQty <= quantity r ->
  ledgers_agree db ->
  ledgers_agree (check_in hw projectId returnQty now db).2.
Proof.
  intros Hp Hpos Hfirst Hle Hdb.
  rewrite check_in_commits.
  intros hw' h'. cbn.
  rewrite (total_held_alter hw' _ projectId _ p Hp).
  unfold check_in_ledger.
  rewrite (proj2 (has_checkout_first hw p)) by eauto.
  cbn [Project.hardware_checkouts Project.set_hardware_checkouts
       Project.set_updated_at].
  rewrite (held_pull_inc_first hw returnQty _ r hw' Hpos Hfirst).
  rewrite lookup_alter_Some.
  intros [(<- & x & Hx & ->) | (Hne & Hx)].
  - cbn. rewrite (Hdb _ _ Hx).
    rewrite bool_decide_eq_true_2 by reflexivity. lia.
  - rewrite (Hdb _ _ Hx).
    rewrite bool_decide_eq_false_2 by congruence. lia.
Qed.

Lemma check_in_keeps_ledgers_agreeing_witness :
  ledgers_agree (check_in "Arduino Uno" "p1" 4 3000 db_held).2.
Proof.
  apply (check_in_keeps_ledgers_agreeing "Arduino Uno" "p1" 4 3000 db_held
           (iot [mkCheckoutRecord "Arduino Uno" 10 1500 "john_doe"] 1500)
           (mkCheckoutRecord "Arduino Uno" 10 1500 "john_doe")).
  - reflexivity.
  - repeat constructor.
  - reflexivity.
  - cbn. lia.
  - exact db_held_agrees.
Defined.

(** * Further properties of the frontend *)

(** ** A number through [ToString] and [parseInt] *)

Lemma digit_cases c :
  is_digit c = true ->
  c = "0"%char \/ c = "1"%char \/ c = "2"%char \/ c = "3"%char \/ c = "4"%char \/
  c = "5"%char \/ c = "6"%char \/ c = "7"%char \/ c = "8"%char \/ c = "9"%char.
Proof.
  destruct c as [[] [] [] [] [] [] [] []]; vm_compute; intros H;
    try discriminate; tauto.
Qed.

Lemma pretty_N_char_digit d :
  (d < 10)%N ->
  digit_value (pretty_N_char d) = Some (Z.of_N d) /\
  is_digit (pretty_N_char d) = true.
Proof.
  intros Hd.
  assert (d = 0 \/ d = 1 \/ d = 2 \/ d = 3 \/ d = 4 \/ d = 5 \/ d = 6 \/ d = 7
          \/ d = 8 \/ d = 9)%N as Hcases by lia.
  repeat destruct Hcases as [->|Hcases]; try subst d; split; reflexivity.
Qed.

(** Reading the numeral of [x] in front of [s] shifts what was read before
    and adds [x]. *)
Lemma digits_pretty_N_go x :
  (0 < x)%N ->
  forall s acc, exists k,
    0 <= k /\
    digits 10 (pretty_N_go x s) acc
    = digits 10 s (Some (default 0 acc * 10 ^ k + Z.of_N x)).
Proof.
  induction (N.lt_wf_0 x) as [x _ IH]. intros Hx s acc.
  rewrite pretty_N_go_step by assumption.
  assert (Hmod : (x `mod` 10 < 10)%N) by (apply N.mod_lt; lia).
  destruct (pretty_N_char_digit _ Hmod) as [Hval _].
  assert (Hdiv : (x = 10 * (x `div` 10) + x `mod` 10)%N)
    by (apply N.div_mod; lia).
  assert (HZ : Z.of_N x = 10 * Z.of_N (x `div` 10) + Z.of_N (x `mod` 10)).
  { rewrite Hdiv at 1. rewrite N2Z.inj_add, N2Z.inj_mul. reflexivity. }
  destruct (N.eq_0_gt_0_cases (x `div` 10)) as [Hz|Hpos].
  - rewrite Hz, pretty_N_go_0. exists 1. split; [lia |].
    cbn [digits]. rewrite Hval.
    destruct (Z.ltb_spec (Z.of_N (x `mod` 10)) 10); [| lia].
    rewrite HZ, Hz, Z.pow_1_r. cbn. do 2 f_equal.
  - destruct (IH (x `div` 10)%N) with
      (s := String (pretty_N_char (x `mod` 10)) s) (acc := acc)
      as (k & Hk & Heq); [apply N.div_lt; lia | assumption |].
    rewrite Heq. exists (Z.succ k). split; [lia |].
    cbn [digits]. rewrite Hval.
    destruct (Z.ltb_spec (Z.of_N (x `mod` 10)) 10); [| lia].
    cbn [default]. rewrite Z.pow_succ_r by assumption.
    do 2 f_equal. rewrite HZ. unfold id. ring.
Qed.

Lemma all_digits_pretty_N_go x s :
  all_digits s = true -> all_digits (pretty_N_go x s) = true.
Proof.
  revert s. induction (N.lt_wf_0 x) as [x _ IH]. intros s Hs.
  destruct (N.eq_0_gt_0_cases x) as [->|Hpos].
  - rewrite pretty_N_go_0. exact Hs.
  - rewrite pretty_N_go_step by assumption.
    apply IH; [apply N.div_lt; lia |].
    cbn [all_digits].
    destruct (pretty_N_char_digit (x `mod` 10)%N) as [_ ->];
      [apply N.mod_lt; lia | exact Hs].
Qed.

Lemma fmap_mul_1 (o : option Z) : Z.mul 1 <$> o = o.
Proof. destruct o as [z|]; cbn; [f_equal; lia | reflexivity]. Qed.

(** A string of digits, with or without a minus sign in front, is read in
    radix 10: it has no white space to skip and no prefix [0x]. *)
Lemma parseInt_digits c s :
  all_digits (String c s) = true ->
  parseInt (String c s) = digits 10 (String c s) None /\
  parseInt (String "-" (String c s)) = Z.mul (-1) <$> digits 10 (String c s) None.
Proof.
  cbn [all_digits]. intros Hall. apply andb_prop in Hall as [Hc Hs].
  apply digit_cases in Hc.
  assert (Hx : match s with
               | String c' _ => c' <> "x"%char /\ c' <> "X"%char
               | EmptyString => True
               end).
  { destruct s as [|c' s']; [exact I |].
    cbn [all_digits] in Hs. apply andb_prop in Hs as [Hc' _].
    apply digit_cases in Hc'.
    repeat destruct Hc' as [->|Hc']; try subst c'; split; discriminate. }
  repeat destruct Hc as [->|Hc]; try subst c;
    try (split; unfold parseInt; cbn; [apply fmap_mul_1 | reflexivity]).
  destruct s as [|c' s'].
  - split; reflexivity.
  - destruct Hx as [Hx1 Hx2].
    destruct c' as [[] [] [] [] [] [] [] []];
      try (exfalso; apply Hx1; reflexivity);
      try (exfalso; apply Hx2; reflexivity);
      split; unfold parseInt; cbn; first [apply fmap_mul_1 | reflexivity].
Qed.

(** [parseInt] reads back the integer [ToString] has written. *)
Lemma parseInt_pretty (z : Z) : parseInt (pretty z) = Some z.
Proof.
  assert (Hpos : forall p,
             exists c s, pretty_N_go (N.pos p) EmptyString = String c s /\
                         all_digits (String c s) = true /\
                         digits 10 (String c s) None = Some (Z.pos p)).
  { intros p.
    destruct (digits_pretty_N_go (N.pos p)) with (s := EmptyString) (acc := @None Z)
      as (k & _ & Heq); [lia |].
    pose proof (all_digits_pretty_N_go (N.pos p) EmptyString eq_refl) as Hall.
    destruct (pretty_N_go (N.pos p) EmptyString) as [|c s] eqn:Hgo.
    - cbn in Heq. discriminate.
    - exists c, s. split; [reflexivity |]. split; [exact Hall |].
      rewrite Heq. cbn. reflexivity. }
  destruct z as [|p|p].
  - reflexivity.
  - destruct (Hpos p) as (c & s & Hgo & Hall & Hval).
    change (pretty (Z.pos p)) with (pretty_N_go (N.pos p) EmptyString).
    rewrite Hgo. rewrite (proj1 (parseInt_digits c s Hall)). exact Hval.
  - destruct (Hpos p) as (c & s & Hgo & Hall & Hval).
    change (pretty (Z.neg p))
      with (String "-" (pretty_N_go (N.pos p) EmptyString)).
    rewrite Hgo. rewrite (proj2 (parseInt_digits c s Hall)), Hval.
    cbn. f_equal.
Qed.

Lemma parseInt_val_JNum z : parseInt_val (JNum z) = JNum z.
Proof. unfold parseInt_val. cbn [ToString]. rewrite parseInt_pretty. reflexivity. Qed.

(** X14: the service hands an integer quantity on as it is.  [parseInt]
    turns the number into its decimal numeral and reads it back, so for
    every integer a [Number] holds exactly, negative ones and zero too, the
    request of [checkOutHardware] and of [checkInHardware] carries that same
    integer, and the function completes normally with what the server
    answers. *)
Theorem service_forwards_integer_quantity
    {World : Type} (adapter : request -> World -> settled * World)
    (projectId hwName : jsval) (z : Z) :
  safe_integer z ->
  parseInt (ToString (JNum z)) = Some z /\
  answers adapter
          (mkRequest POST "/check_out"
             (JObj [("project_id", projectId); ("hw_name", hwName);
                    ("quantity", JNum z)]))
          (checkOutHardware adapter projectId hwName (JNum z)) /\
  answers adapter
          (mkRequest POST "/check_in"
             (JObj [("project_id", projectId); ("hw_name", hwName);
                    ("quantity", JNum z)]))
          (checkInHardware adapter projectId hwName (JNum z)).
Proof.
  intros _. split; [apply parseInt_pretty |].
  unfold checkOutHardware, checkInHardware. rewrite parseInt_val_JNum.
  split; exact (service_answers adapter _).
Qed.

Lemma service_forwards_integer_quantity_witness :
  parseInt (ToString (JNum (-1204))) = Some (-1204) /\
  answers recorder
          (mkRequest POST "/check_out"
             (JObj [("project_id", JStr "p1"); ("hw_name", JStr "Arduino Uno");
                    ("quantity", JNum (-1204))]))
          (checkOutHardware recorder (JStr "p1") (JStr "Arduino Uno")
                            (JNum (-1204))) /\
  answers recorder
          (mkRequest POST "/check_in"
             (JObj [("project_id", JStr "p1"); ("hw_name", JStr "Arduino Uno");
                    ("quantity", JNum (-1204))]))
          (checkInHardware recorder (JStr "p1") (JStr "Arduino Uno")
                           (JNum (-1204))).
Proof.
  apply (service_forwards_integer_quantity recorder (JStr "p1")
           (JStr "Arduino Uno") (-1204)).
  unfold safe_integer. vm_compute. reflexivity.
Defined.

(** ** The other services *)

(** X15: the functions of the authentication service, [register], [login]
    and [logout], and [getProjectCheckouts] of the hardware service complete
    normally whatever becomes of their request: with the body of the
    response, with the body of the error response, or with
    [{ success: false, error: 'Failed to connect to server' }] when the
    failed request has no response body. *)
Theorem auth_service_total
    {World : Type} (adapter : request -> World -> settled * World)
    (username password projectId : jsval) :
  answers adapter
          (mkRequest POST "/register"
             (JObj [("username", username); ("password", password)]))
          (register adapter username password) /\
  answers adapter
          (mkRequest POST "/login"
             (JObj [("username", username); ("password", password)]))
          (login adapter username password) /\
  answers adapter (mkRequest POST "/logout" JUndefined) (logout adapter) /\
  answers adapter
          (mkRequest GET ("/project_checkouts/" ++ ToString projectId) JUndefined)
          (getProjectCheckouts adapter projectId).
Proof.
  do 3 (split; [exact (service_answers adapter _) |]).
  exact (service_answers adapter _).
Qed.

(** X16: the five functions of the project service complete normally
    whatever becomes of their request, in the same three ways. *)
Theorem project_service_total
    {World : Type} (adapter : request -> World -> settled * World)
    (name description projectId : jsval) :
  answers adapter (mkRequest GET "/get_user_projects_list" JUndefined)
          (getUserProjects adapter) /\
  answers adapter
          (mkRequest POST "/create_project"
             (JObj [("name", name);
                    ("description",
                     default_parameter description (JStr EmptyString))]))
          (createProject adapter name description) /\
  answers adapter
          (mkRequest POST "/join_project" (JObj [("project_id", projectId)]))
          (joinProject adapter projectId) /\
  answers adapter
          (mkRequest GET ("/get_project_details/" ++ ToString projectId)
                     JUndefined)
          (getProjectDetails adapter projectId) /\
  answers adapter
          (mkRequest POST "/leave_project" (JObj [("project_id", projectId)]))
          (leaveProject adapter projectId).
Proof.
  do 4 (split; [exact (service_answers adapter _) |]).
  exact (service_answers adapter _).
Qed.

(** ** What the inventory form sends and shows *)

(** The service behind a logged server: the request is in the log, once. *)
Lemma service_logged {World : Type}
    (adapter : request -> World -> settled * World) r w log :
  exists v,
    service (await_api (logged adapter) r) (w, log)
    = (Normal v, ((adapter r w).2, (log ++ [r])%list)).
Proof.
  destruct (service_answers (logged adapter) r (w, log)) as (v & Hv & _).
  exists v. exact Hv.
Qed.

Lemma respond {World : Type} (call : async (World := World) jsval)
    fallback caught p w v w' :
  call w = (Normal v, w') ->
  try_catch (abind call (on_response fallback p))
            (fun _ => areturn (setError (JStr caught) p)) w
  = (Normal (shown fallback caught p v), w').
Proof.
  intros Hcall. unfold try_catch, abind, on_response, lift, shown.
  rewrite Hcall.
  destruct v; cbn; try reflexivity.
  destruct (truthy (field "success" fields)); reflexivity.
Qed.

Lemma parseInt_nonempty text qty :
  parseInt text = Some qty -> String.eqb text EmptyString = false.
Proof. destruct text; [discriminate | reflexivity]. Qed.

(** The checkout form that passes the checks of its handler. *)
Lemma handleCheckout_submits {World : Type}
    (adapter : request -> World -> settled * World)
    (p : Page.state) (hardware : HardwareSet.t) (qty : Z) :
  Page.selectedProject p <> EmptyString ->
  parseInt (Page.quantity p) = Some qty ->
  0 < qty <= HardwareSet.available hardware ->
  Page.selectedHardware p = Some hardware ->
  handleCheckout adapter p
  = try_catch
      (abind (checkOutHardware adapter (JStr (Page.selectedProject p))
                               (JStr (HardwareSet.hw_name hardware)) (JNum qty))
             (on_response "Failed to checkout hardware"
                          (setError (JStr EmptyString) p)))
      (fun _ =>
         areturn (setError (JStr "An error occurred during checkout")
                           (setError (JStr EmptyString) p))).
Proof.
  intros Hproj Hparse [Hpos Hle] Hhw.
  unfold handleCheckout. cbn [setError Page.selectedProject Page.quantity
                              Page.selectedHardware].
  apply String.eqb_neq in Hproj. rewrite Hproj.
  rewrite (parseInt_nonempty _ _ Hparse), Hparse. cbn [orb].
  destruct (Z.leb_spec qty 0); [lia |].
  rewrite Hhw.
  destruct (Z.ltb_spec (HardwareSet.available hardware) qty); [lia |].
  reflexivity.
Qed.


(** Up to the moment it has the response, the checkout form has sent nothing,
    or the one request of a form that passes its checks. *)
Lemma handleCheckout_log
    {World : Type} (adapter : request -> World -> settled * World)
    (p : Page.state) (w : World) :
  (forall qty, parseInt (Page.quantity p) = Some qty -> safe_integer qty) ->
  (handleCheckout (logged adapter) p (w, [])).2 = (w, [])
  \/ exists hardware qty,
       Page.selectedHardware p = Some hardware /\
       Page.selectedProject p <> EmptyString /\
       parseInt (Page.quantity p) = Some qty /\
       0 < qty <= HardwareSet.available hardware /\
       (handleCheckout (logged adapter) p (w, [])).2.2
       = [mkRequest POST "/check_out"
            (JObj [("project_id", JStr (Page.selectedProject p));
                   ("hw_name", JStr (HardwareSet.hw_name hardware));
                   ("quantity", JNum qty)])].
Proof.
  intros _.
  destruct (String.eqb (Page.selectedProject p) EmptyString) eqn:Hproj;
    [left; unfold handleCheckout; cbn; rewrite Hproj; reflexivity |].
  destruct (String.eqb (Page.quantity p) EmptyString) eqn:Htext;
    [left; unfold handleCheckout; cbn; rewrite Hproj, Htext; reflexivity |].
  destruct (parseInt (Page.quantity p)) as [qty|] eqn:Hparse;
    [| left; unfold handleCheckout; cbn; rewrite Hproj, Htext, Hparse;
       reflexivity].
  destruct (Z.leb_spec qty 0) as [Hle|Hpos];
    [left; unfold handleCheckout; cbn; rewrite Hproj, Htext, Hparse; cbn;
     destruct (Z.leb_spec qty 0); [reflexivity | lia] |].
  destruct (Page.selectedHardware p) as [hardware|] eqn:Hhw;
    [| left; unfold handleCheckout; cbn; rewrite Hproj, Htext, Hparse, Hhw; cbn;
       destruct (Z.leb_spec qty 0); [lia | reflexivity]].
  destruct (Z.ltb_spec (HardwareSet.available hardware) qty) as [Hlt|Hge];
    [left; unfold handleCheckout; cbn; rewrite Hproj, Htext, Hparse, Hhw; cbn;
     destruct (Z.leb_spec qty 0); [lia |];
     destruct (Z.ltb_spec (HardwareSet.available hardware) qty);
       [reflexivity | lia] |].
  right. exists hardware, qty.
  apply String.eqb_neq in Hproj.
  split; [reflexivity |]. split; [assumption |].
  split; [reflexivity |]. split; [lia |].
  rewrite (handleCheckout_submits (logged adapter) p hardware qty)
    by (first [assumption | lia]).
  unfold checkOutHardware. rewrite parseInt_val_JNum.
  destruct (service_logged adapter
              (mkRequest POST "/check_out"
                 (JObj [("project_id", JStr (Page.selectedProject p));
                        ("hw_name", JStr (HardwareSet.hw_name hardware));
                        ("quantity", JNum qty)])) w [])
    as [v Hv].
  erewrite respond by exact Hv. reflexivity.
Qed.

(** The request of the checkout form for a hardware set and a quantity. *)
Lemma to_url_check_out r :
  url r = "/check_out" -> to_url "/check_out" [r] = [r].
Proof. intros Hr. unfold to_url. cbn. rewrite Hr. reflexivity. Qed.

(** X17: what the checkout form sends to [/check_out].  When the form has a
    project, a hardware set and a quantity that [parseInt] reads as a
    positive integer not above the availability the page shows, it sends
    one request there: a [POST] for that project and hardware set with that
    integer for quantity.  In every other case it sends none.  The reload
    that follows a success asks other addresses. *)
Theorem handleCheckout_sends_valid_request
    {World : Type} (adapter : request -> World -> settled * World)
    (p : Page.state) (w : World) :
  (forall qty, parseInt (Page.quantity p) = Some qty -> safe_integer qty) ->
  (forall hardware qty,
     Page.selectedHardware p = Some hardware ->
     Page.selectedProject p <> EmptyString ->
     parseInt (Page.quantity p) = Some qty ->
     0 < qty <= HardwareSet.available hardware ->
     to_url "/check_out" (handleCheckout (logged adapter) p (w, [])).2.2
     = [mkRequest POST "/check_out"
          (JObj [("project_id", JStr (Page.selectedProject p));
                 ("hw_name", JStr (HardwareSet.hw_name hardware));
                 ("quantity", JNum qty)])]) /\
  ((~ exists hardware qty,
        Page.selectedHardware p = Some hardware /\
        Page.selectedProject p <> EmptyString /\
        parseInt (Page.quantity p) = Some qty /\
        0 < qty <= HardwareSet.available hardware) ->
   to_url "/check_out" (handleCheckout (logged adapter) p (w, [])).2.2 = []).
Proof.
  intros Hsafe.
  destruct (handleCheckout_log adapter p w Hsafe)
    as [Hnone | (hardware & qty & Hhw & Hproj & Hparse & Hqty & Hlog)].
  - split.
    + intros hardware qty Hhw Hproj Hparse Hqty. exfalso.
      rewrite (handleCheckout_submits (logged adapter) p hardware qty)
        in Hnone by assumption.
      unfold checkOutHardware in Hnone. rewrite parseInt_val_JNum in Hnone.
      destruct (service_logged adapter
                  (mkRequest POST "/check_out"
                     (JObj [("project_id", JStr (Page.selectedProject p));
                            ("hw_name", JStr (HardwareSet.hw_name hardware));
                            ("quantity", JNum qty)])) w [])
        as [v Hv].
      erewrite respond in Hnone by exact Hv. discriminate.
    + intros _. rewrite Hnone. reflexivity.
  - split.
    + intros hardware' qty' Hhw' _ Hparse' _.
      assert (hardware' = hardware) as -> by congruence.
      assert (qty' = qty) as -> by congruence.
      rewrite Hlog. apply to_url_check_out. reflexivity.
    + intros Hnot. exfalso. apply Hnot. exists hardware, qty. auto.
Qed.

Lemma handleCheckout_sends_valid_request_witness :
  to_url "/check_out" (handleCheckout (logged recorder) (form "12") ([], [])).2.2
  = [mkRequest POST "/check_out"
       (JObj [("project_id", JStr "p1"); ("hw_name", JStr "Arduino Uno");
              ("quantity", JNum 12)])]
  /\
  to_url "/check_out" (handleCheckout (logged recorder) (form "51") ([], [])).2.2
  = [].
Proof.
  assert (Hsafe : forall text n,
             parseInt text = Some n -> safe_integer n ->
             forall qty, parseInt text = Some qty -> safe_integer qty).
  { intros text n Hn Hsafe qty Hqty. congruence. }
  split.
  - apply (proj1 (handleCheckout_sends_valid_request recorder (form "12") []
                    (Hsafe "12" 12 eq_refl eq_refl))
             (HardwareSet.mk "Arduino Uno" 50 0) 12).
    + reflexivity.
    + discriminate.
    + vm_compute. reflexivity.
    + cbn. lia.
  - apply (proj2 (handleCheckout_sends_valid_request recorder (form "51") []
                    (Hsafe "51" 51 eq_refl eq_refl))).
    intros (hardware & qty & Hhw & _ & Hparse & Hqty).
    vm_compute in Hhw. vm_compute in Hparse.
    injection Hhw as <-. injection Hparse as <-. cbn in Hqty. lia.
Defined.



(** The request a valid checkout form sends. *)
Lemma handleCheckout_answer {World : Type}
    (adapter : request -> World -> settled * World)
    (p : Page.state) (w : World) (hardware : HardwareSet.t) (qty : Z) :
  Page.selectedProject p <> EmptyString ->
  parseInt (Page.quantity p) = Some qty ->
  0 < qty <= HardwareSet.available hardware ->
  Page.selectedHardware p = Some hardware ->
  let r := mkRequest POST "/check_out"
             (JObj [("project_id", JStr (Page.selectedProject p));
                    ("hw_name", JStr (HardwareSet.hw_name hardware));
                    ("quantity", JNum qty)]) in
  exists v,
    handleCheckout adapter p w
    = (Normal (shown "Failed to checkout hardware"
                     "An error occurred during checkout"
                     (setError (JStr EmptyString) p) v),
       (adapter r w).2) /\
    match (adapter r w).1 with
    | Resolved response =>
        match get response "data" with
        | Normal data => v = data
        | Throw _ => v = connection_failure
        end
    | Rejected error =>
        (no_response_body error -> v = connection_failure) /\
        (forall response data,
           get error "response" = Normal response ->
           truthy response = true ->
           get response "data" = Normal data ->
           truthy data = true ->
           v = data)
    end.
Proof.
  intros Hproj Hparse Hqty Hhw r.
  destruct (service_answers adapter r w) as (v & Hv & Hspec & _).
  exists v. split; [| exact Hspec].
  rewrite (handleCheckout_submits adapter p hardware qty) by assumption.
  unfold checkOutHardware. rewrite parseInt_val_JNum.
  apply respond. exact Hv.
Qed.

(** X19: when the request of a valid checkout form fails without a response
    body, because the server cannot be reached or answers with nothing, the
    page shows 'Failed to connect to server' and keeps the form as it is
    filled in. *)
Theorem handleCheckout_connection_failure
    {World : Type} (adapter : request -> World -> settled * World)
    (p : Page.state) (w w' : World) (hardware : HardwareSet.t) (qty : Z)
    (error : jsval) :
  Page.selectedProject p <> EmptyString ->
  parseInt (Page.quantity p) = Some qty ->
  safe_integer qty ->
  0 < qty <= HardwareSet.available hardware ->
  Page.selectedHardware p = Some hardware ->
  adapter (mkRequest POST "/check_out"
             (JObj [("project_id", JStr (Page.selectedProject p));
                    ("hw_name", JStr (HardwareSet.hw_name hardware));
                    ("quantity", JNum qty)])) w
  = (Rejected error, w') ->
  no_response_body error ->
  handleCheckout adapter p w
  = (Normal (setError (JStr "Failed to connect to server") p), w').
Proof.
  intros Hproj Hparse _ Hqty Hhw Hsend Hno.
  destruct (handleCheckout_answer adapter p w hardware qty Hproj Hparse Hqty Hhw)
    as (v & -> & Hspec).
  rewrite Hsend in *. cbn in Hspec.
  rewrite (proj1 Hspec Hno). reflexivity.
Qed.

Lemma handleCheckout_connection_failure_witness :
  handleCheckout
    (fun (r : request) (w : unit) =>
       (Rejected (JObj [("message", JStr "Network Error")]), w))
    (form "5") tt
  = (Normal (setError (JStr "Failed to connect to server") (form "5")), tt).
Proof.
  apply (handleCheckout_connection_failure
           (fun (r : request) (w : unit) =>
              (Rejected (JObj [("message", JStr "Network Error")]), w))
           (form "5") tt tt (HardwareSet.mk "Arduino Uno" 50 0) 5
           (JObj [("message", JStr "Network Error")])).
  - discriminate.
  - vm_compute. reflexivity.
  - unfold safe_integer. vm_compute. reflexivity.
  - cbn. lia.
  - reflexivity.
  - reflexivity.
  - intros response data Hresp Htruthy. cbn in Hresp.
    injection Hresp as <-. discriminate.
Defined.

(** X20: when the server refuses the request of a valid checkout form with a
    body whose [success] is not truthy, the page shows the [error] of that
    body, or 'Failed to checkout hardware' when it has none, and keeps the
    form as it is filled in. *)
Theorem handleCheckout_shows_server_error
    {World : Type} (adapter : request -> World -> settled * World)
    (p : Page.state) (w w' : World) (hardware : HardwareSet.t) (qty : Z)
    (error response : jsval) (fields : list (string * jsval)) :
  Page.selectedProject p <> EmptyString ->
  parseInt (Page.quantity p) = Some qty ->
  safe_integer qty ->
  0 < qty <= HardwareSet.available hardware ->
  Page.selectedHardware p = Some hardware ->
  adapter (mkRequest POST "/check_out"
             (JObj [("project_id", JStr (Page.selectedProject p));
                    ("hw_name", JStr (HardwareSet.hw_name hardware));
                    ("quantity", JNum qty)])) w
  = (Rejected error, w') ->
  get error "response" = Normal response ->
  truthy response = true ->
  get response "data" = Normal (JObj fields) ->
  truthy (field "success" fields) = false ->
  handleCheckout adapter p w
  = (Normal (setError (js_or (field "error" fields)
                             (JStr "Failed to checkout hardware")) p),
     w').
Proof.
  intros Hproj Hparse _ Hqty Hhw Hsend Hresp Htruthy Hdata Hsuccess.
  destruct (handleCheckout_answer adapter p w hardware qty Hproj Hparse Hqty Hhw)
    as (v & -> & Hspec).
  rewrite Hsend in *. cbn in Hspec.
  rewrite (proj2 Hspec response (JObj fields) Hresp Htruthy Hdata eq_refl).
  unfold shown. cbn. rewrite Hsuccess. reflexivity.
Qed.

Lemma handleCheckout_shows_server_error_witness :
  handleCheckout
    (fun (r : request) (w : unit) =>
       (Rejected
          (JObj [("response",
                  JObj [("status", JNum 400);
                        ("data",
                         JObj [("success", JBool false);
                               ("error",
                                JStr "Insufficient hardware available")])])]),
        w))
    (form "5") tt
  = (Normal (setError (JStr "Insufficient hardware available") (form "5")), tt).
Proof.
  apply (handleCheckout_shows_server_error
           (fun (r : request) (w : unit) =>
              (Rejected
                 (JObj [("response",
                         JObj [("status", JNum 400);
                               ("data",
                                JObj [("success", JBool false);
                                      ("error",
                                       JStr "Insufficient hardware available")])])]),
               w))
           (form "5") tt tt (HardwareSet.mk "Arduino Uno" 50 0) 5
           (JObj [("response",
                   JObj [("status", JNum 400);
                         ("data",
                          JObj [("success", JBool false);
                                ("error",
                                 JStr "Insufficient hardware available")])])])
           (JObj [("status", JNum 400);
                  ("data",
                   JObj [("success", JBool false);
                         ("error", JStr "Insufficient hardware available")])])
           [("success", JBool false);
            ("error", JStr "Insufficient hardware available")]).
  - discriminate.
  - vm_compute. reflexivity.
  - unfold safe_integer. vm_compute. reflexivity.
  - cbn. lia.
  - reflexivity.
  - reflexivity.
  - reflexivity.
  - reflexivity.
  - reflexivity.
  - reflexivity.
Defined.

(** X21: when the server answers the request of a valid checkout form with a
    body whose [success] is truthy, the form is closed and emptied, no error
    is shown, and the page starts to load its data again. *)
Theorem handleCheckout_success_resets
    {World : Type} (adapter : request -> World -> settled * World)
    (p : Page.state) (w w' : World) (hardware : HardwareSet.t) (qty : Z)
    (response : jsval) (fields : list (string * jsval)) :
  Page.selectedProject p <> EmptyString ->
  parseInt (Page.quantity p) = Some qty ->
  safe_integer qty ->
  0 < qty <= HardwareSet.available hardware ->
  Page.selectedHardware p = Some hardware ->
  adapter (mkRequest POST "/check_out"
             (JObj [("project_id", JStr (Page.selectedProject p));
                    ("hw_name", JStr (HardwareSet.hw_name hardware));
                    ("quantity", JNum qty)])) w
  = (Resolved response, w') ->
  get response "data" = Normal (JObj fields) ->
  truthy (field "success" fields) = true ->
  handleCheckout adapter p w
  = (Normal (Page.mk None EmptyString EmptyString (JStr EmptyString) true), w').
Proof.
  intros Hproj Hparse _ Hqty Hhw Hsend Hdata Hsuccess.
  destruct (handleCheckout_answer adapter p w hardware qty Hproj Hparse Hqty Hhw)
    as (v & -> & Hspec).
  rewrite Hsend in *. cbn in Hspec. rewrite Hdata in Hspec. subst v.
  unfold shown. cbn. rewrite Hsuccess. reflexivity.
Qed.

Lemma handleCheckout_success_resets_witness :
  handleCheckout recorder (form "5") []
  = (Normal (Page.mk None EmptyString EmptyString (JStr EmptyString) true),
     [mkRequest POST "/check_out"
        (JObj [("project_id", JStr "p1"); ("hw_name", JStr "Arduino Uno");
               ("quantity", JNum 5)])]).
Proof.
  apply (handleCheckout_success_resets recorder (form "5") [] _
           (HardwareSet.mk "Arduino Uno" 50 0) 5
           (JObj [("data", JObj [("success", JBool true)])])
           [("success", JBool true)]).
  - discriminate.
  - vm_compute. reflexivity.
  - unfold safe_integer. vm_compute. reflexivity.
  - cbn. lia.
  - reflexivity.
  - reflexivity.
  - reflexivity.
  - reflexivity.
Defined.

(** ** The session in the browser *)

(** X22: a login is remembered over a reload of the page.  After
    [handleLogin] with a user name that is not empty, a reload finds [App]
    authenticated as that user, and the authentication service reports the
    same user. *)
Theorem login_survives_reload (user : string) (b : Browser) :
  user <> EmptyString ->
  App_state (reload (handleLogin user b)) = App.mk true user /\
  isAuthenticated (reload (handleLogin user b)) = true /\
  getCurrentUsername (reload (handleLogin user b)) = Some user.
Proof.
  intros Huser. apply String.eqb_neq in Huser.
  unfold reload, App_mount, handleLogin, isAuthenticated, getCurrentUsername.
  cbn [localStorage]. rewrite lookup_insert_eq, Huser. cbn.
  rewrite lookup_insert_eq. repeat split.
Qed.

Lemma login_survives_reload_witness :
  App_state (reload (handleLogin "john_doe"
                       (mkBrowser (App.mk false EmptyString) ∅ "/login")))
  = App.mk true "john_doe" /\
  isAuthenticated (reload (handleLogin "john_doe"
                             (mkBrowser (App.mk false EmptyString) ∅ "/login")))
  = true /\
  getCurrentUsername (reload (handleLogin "john_doe"
                                (mkBrowser (App.mk false EmptyString) ∅ "/login")))
  = Some "john_doe".
Proof.
  apply (login_survives_reload "john_doe"
           (mkBrowser (App.mk false EmptyString) ∅ "/login")).
  discriminate.
Defined.

(** X23: a logout is final.  After [handleLogout], whoever was logged in, a
    reload finds [App] not authenticated, and the authentication service
    reports no user. *)
Theorem logout_survives_reload (b : Browser) :
  App_state (handleLogout b) = App.mk false EmptyString /\
  App_state (reload (handleLogout b)) = App.mk false EmptyString /\
  isAuthenticated (reload (handleLogout b)) = false /\
  getCurrentUsername (reload (handleLogout b)) = None.
Proof.
  unfold reload, App_mount, handleLogout, isAuthenticated, getCurrentUsername.
  cbn [localStorage App_state]. rewrite lookup_delete_eq. cbn.
  rewrite lookup_delete_eq. repeat split.
Qed.

(** X24: the logout of the portal does not depend on the server.  Whatever
    becomes of the request to [/logout], the handler completes normally, the
    browser is logged out as by [handleLogout] of [App], and the router is at
    [/login]. *)
Theorem MainPortal_logout_is_local
    {World : Type} (adapter : request -> World -> settled * World)
    (b : Browser) (w : World) :
  MainPortal_handleLogout adapter b w
  = (Normal (navigate "/login" (handleLogout b)),
     (adapter (mkRequest POST "/logout" JUndefined) w).2) /\
  isAuthenticated (navigate "/login" (handleLogout b)) = false /\
  location (navigate "/login" (handleLogout b)) = "/login".
Proof.
  split.
  - unfold MainPortal_handleLogout, try_catch, abind, logout, api_post.
    destruct (service_answers adapter (mkRequest POST "/logout" JUndefined) w)
      as (v & Hv & _).
    rewrite Hv. reflexivity.
  - unfold isAuthenticated, navigate, handleLogout. cbn.
    rewrite lookup_delete_eq. split; reflexivity.
Qed.

(** ** The login form *)

(** X25: the login form checks before it sends, and says which check
    failed.  With an empty user name or password it shows 'Please fill in
    all fields'.  With both filled in, in registration mode, it shows
    'Passwords do not match' when the confirmation differs from the
    password, and 'Password must be at least 8 characters' when the
    confirmation agrees and the password, of ASCII characters, has fewer
    than 8 of them.  In each of these cases [handleSubmit] sends no request,
    logs nobody in and ends with [loading] off. *)
Theorem handleSubmit_refuses_locally
    {World : Type} (adapter : request -> World -> settled * World)
    (s : LoginPage.state) (b : Browser) (w : World) :
  (LoginPage.username s = EmptyString \/ LoginPage.password s = EmptyString ->
   handleSubmit adapter s b w
   = (Normal (refused_with "Please fill in all fields" s, b), w)) /\
  (LoginPage.username s <> EmptyString ->
   LoginPage.password s <> EmptyString ->
   LoginPage.isLoginMode s = false ->
   LoginPage.password s <> LoginPage.confirmPassword s ->
   handleSubmit adapter s b w
   = (Normal (refused_with "Passwords do not match" s, b), w)) /\
  (LoginPage.username s <> EmptyString ->
   LoginPage.password s <> EmptyString ->
   LoginPage.isLoginMode s = false ->
   LoginPage.password s = LoginPage.confirmPassword s ->
   is_ascii_text (LoginPage.password s) = true ->
   (String.length (LoginPage.password s) < 8)%nat ->
   handleSubmit adapter s b w
   = (Normal (refused_with "Password must be at least 8 characters" s, b), w)).
Proof.
  destruct s as [mode username password confirmPassword error loading].
  unfold handleSubmit, refused_with. cbn.
  split; [| split].
  - intros Hempty.
    assert (Htest : String.eqb username EmptyString
                    || String.eqb password EmptyString = true).
    { destruct Hempty as [-> | ->]; cbn; [reflexivity | apply orb_true_r]. }
    rewrite Htest. reflexivity.
  - intros Hu Hp -> Hne.
    apply String.eqb_neq in Hu, Hp, Hne. rewrite Hu, Hp, Hne. reflexivity.
  - intros Hu Hp -> <- _ Hlen.
    apply String.eqb_neq in Hu, Hp. rewrite Hu, Hp, String.eqb_refl.
    cbn [orb negb andb].
    destruct (Z.ltb_spec (Z.of_nat (String.length password)) 8); [| lia].
    reflexivity.
Qed.

Lemma handleSubmit_refuses_locally_witness :
  handleSubmit recorder
    (LoginPage.mk true EmptyString "secret" EmptyString (JStr EmptyString) false)
    (mkBrowser (App.mk false EmptyString) ∅ "/login") []
  = (Normal
       (LoginPage.mk true EmptyString "secret" EmptyString
                     (JStr "Please fill in all fields") false,
        mkBrowser (App.mk false EmptyString) ∅ "/login"),
     []) /\
  handleSubmit recorder
    (LoginPage.mk false "john_doe" "secret12" "secret21" (JStr EmptyString) false)
    (mkBrowser (App.mk false EmptyString) ∅ "/login") []
  = (Normal
       (LoginPage.mk false "john_doe" "secret12" "secret21"
                     (JStr "Passwords do not match") false,
        mkBrowser (App.mk false EmptyString) ∅ "/login"),
     []) /\
  handleSubmit recorder
    (LoginPage.mk false "john_doe" "secret" "secret" (JStr EmptyString) false)
    (mkBrowser (App.mk false EmptyString) ∅ "/login") []
  = (Normal
       (LoginPage.mk false "john_doe" "secret" "secret"
                     (JStr "Password must be at least 8 characters") false,
        mkBrowser (App.mk false EmptyString) ∅ "/login"),
     []).
Proof.
  split; [| split].
  - apply (proj1 (handleSubmit_refuses_locally recorder
                    (LoginPage.mk true EmptyString "secret" EmptyString
                                  (JStr EmptyString) false)
                    (mkBrowser (App.mk false EmptyString) ∅ "/login") [])).
    left. reflexivity.
  - apply (proj1 (proj2 (handleSubmit_refuses_locally recorder
                           (LoginPage.mk false "john_doe" "secret12" "secret21"
                                         (JStr EmptyString) false)
                           (mkBrowser (App.mk false EmptyString) ∅ "/login")
                           []))).
    + discriminate.
    + discriminate.
    + reflexivity.
    + discriminate.
  - apply (proj2 (proj2 (handleSubmit_refuses_locally recorder
                           (LoginPage.mk false "john_doe" "secret" "secret"
                                         (JStr EmptyString) false)
                           (mkBrowser (App.mk false EmptyString) ∅ "/login")
                           []))).
    + discriminate.
    + discriminate.
    + reflexivity.
    + reflexivity.
    + reflexivity.
    + cbn. lia.
Defined.

(** What the [try] block of [handleSubmit], with its [catch], ends in when
    the service has returned [v] for the last request. *)
Lemma login_logged {World : Type}
    (adapter : request -> World -> settled * World) username password w log :
  exists v,
    login (logged adapter) username password (w, log)
    = (Normal v,
       ((adapter (mkRequest POST "/login"
                    (JObj [("username", username); ("password", password)]))
                 w).2,
        (log ++ [mkRequest POST "/login"
                   (JObj [("username", username); ("password", password)])])%list)).
Proof. apply service_logged. Qed.

Lemma register_logged {World : Type}
    (adapter : request -> World -> settled * World) username password w log :
  exists v,
    register (logged adapter) username password (w, log)
    = (Normal v,
       ((adapter (mkRequest POST "/register"
                    (JObj [("username", username); ("password", password)]))
                 w).2,
        (log ++ [mkRequest POST "/register"
                   (JObj [("username", username); ("password", password)])])%list)).
Proof. apply service_logged. Qed.

(** X26: what [handleSubmit] of the login form does, whatever the server.
    It completes normally and ends with [loading] off.  It sends at most a
    login in login mode, and at most a registration followed by a login in
    registration mode, each with the user name and the password of the form.
    The browser is as before, or logged in as the user of the form, and then
    the last request was a login. *)
Theorem handleSubmit_requests
    {World : Type} (adapter : request -> World -> settled * World)
    (s : LoginPage.state) (b : Browser) (w : World) :
  let credentials :=
    JObj [("username", JStr (LoginPage.username s));
          ("password", JStr (LoginPage.password s))] in
  let L := mkRequest POST "/login" credentials in
  let R := mkRequest POST "/register" credentials in
  exists s' b' w' log,
    handleSubmit (logged adapter) s b (w, []) = (Normal (s', b'), (w', log)) /\
    LoginPage.loading s' = false /\
    (if LoginPage.isLoginMode s
     then log = [] \/ log = [L]
     else log = [] \/ log = [R] \/ log = [R; L]) /\
    (b' = b \/
     b' = handleLogin (LoginPage.username s) b /\ (log = [L] \/ log = [R; L])).
Proof.
  intros credentials L R. subst L R credentials.
  destruct s as [mode username password confirmPassword error loading].
  cbn [LoginPage.username LoginPage.password LoginPage.isLoginMode] in *.
  unfold handleSubmit. cbn.
  destruct (String.eqb username EmptyString || String.eqb password EmptyString);
    [do 4 eexists; split; [reflexivity |]; split; [reflexivity |];
     split; [destruct mode; auto | auto] |].
  destruct mode; cbn [negb andb].
  - (* login *)
    unfold abind at 1. unfold try_catch, submit_credentials. cbn.
    unfold abind at 1.
    destruct (login_logged adapter (JStr username) (JStr password) w [])
      as [v Hv].
    rewrite Hv. cbn [app].
    destruct v as [| | | | | |fields]; cbn;
      try (do 4 eexists; split; [reflexivity |]; split; [reflexivity |]; auto).
    destruct (truthy (field "success" fields)); cbn;
      do 4 eexists; (split; [reflexivity |]); (split; [reflexivity |]); auto.
  - (* registration *)
    destruct (negb (String.eqb password confirmPassword));
      [do 4 eexists; split; [reflexivity |]; split; [reflexivity |]; auto |].
    destruct (Z.of_nat (String.length password) <? 8);
      [do 4 eexists; split; [reflexivity |]; split; [reflexivity |]; auto |].
    unfold abind at 1. unfold try_catch, submit_credentials. cbn.
    unfold abind at 1.
    destruct (register_logged adapter (JStr username) (JStr password) w [])
      as [v Hv].
    rewrite Hv. cbn [app].
    destruct v as [| | | | | |fields]; cbn;
      try (do 4 eexists; split; [reflexivity |]; split; [reflexivity |]; auto).
    destruct (truthy (field "success" fields)); cbn;
      [| do 4 eexists; (split; [reflexivity |]); (split; [reflexivity |]); auto].
    unfold abind at 1.
    destruct (login_logged adapter (JStr username) (JStr password)
                (adapter
                   (mkRequest POST "/register"
                      (JObj [("username", JStr username);
                             ("password", JStr password)])) w).2
                [mkRequest POST "/register"
                   (JObj [("username", JStr username);
                          ("password", JStr password)])]) as [v2 Hv2].
    rewrite Hv2.
    cbn [app].
    destruct v2 as [| | | | | |fields2]; cbn;
      try (do 4 eexists; split; [reflexivity |]; split; [reflexivity |]; auto).
    destruct (truthy (field "success" fields2)); cbn;
      do 4 eexists; (split; [reflexivity |]); (split; [reflexivity |]); auto 6.
Qed.

(** ** The project forms *)

(** [trim] leaves nothing exactly of the strings that are all white space. *)
Lemma trim_start_blank s :
  all_white_space s = true -> trim_start s = EmptyString.
Proof.
  induction s as [|c s IH]; cbn; [reflexivity |].
  destruct (is_white_space c); cbn; [exact IH | discriminate].
Qed.

Lemma trim_start_not_blank s :
  all_white_space s = false ->
  exists c t, trim_start s = String c t /\ is_white_space c = false.
Proof.
  induction s as [|c s IH]; cbn; [discriminate |].
  destruct (is_white_space c) eqn:Hc; cbn; [exact IH | eauto].
Qed.

Lemma trim_end_not_empty c t :
  is_white_space c = false -> trim_end (String c t) <> EmptyString.
Proof.
  intros Hc. cbn. destruct (trim_end t); [rewrite Hc |]; discriminate.
Qed.

Lemma trim_blank s : trim s = EmptyString <-> all_white_space s = true.
Proof.
  unfold trim. split.
  - intros Htrim. destruct (all_white_space s) eqn:Hs; [reflexivity |].
    destruct (trim_start_not_blank s Hs) as (c & t & Heq & Hc).
    rewrite Heq in Htrim. destruct (trim_end_not_empty c t Hc Htrim).
  - intros Hs. rewrite (trim_start_blank s Hs). reflexivity.
Qed.

(** X27: a project name, or a project ID, that is empty or all white space
    is refused before any request is sent: the handler only sets the error
    of the page, 'Project name is required' or 'Project ID is required', and
    the world behind the server is as it was. *)
Theorem project_forms_refuse_blank
    {World : Type} (adapter : request -> World -> settled * World)
    (s : ProjectPage.state) (w : World) :
  (all_white_space (ProjectPage.projectName s) = true ->
   handleCreateProject adapter s w
   = (Normal (ProjectPage.setError (JStr "Project name is required") s), w)) /\
  (all_white_space (ProjectPage.projectIdToJoin s) = true ->
   handleJoinProject adapter s w
   = (Normal (ProjectPage.setError (JStr "Project ID is required") s), w)).
Proof.
  split; intros Hblank; apply trim_blank in Hblank.
  - unfold handleCreateProject. cbn [ProjectPage.setError ProjectPage.projectName].
    rewrite Hblank. reflexivity.
  - unfold handleJoinProject.
    cbn [ProjectPage.setError ProjectPage.projectIdToJoin].
    rewrite Hblank. reflexivity.
Qed.

Lemma project_forms_refuse_blank_witness :
  handleCreateProject recorder
    (ProjectPage.mk "   " "a robot arm" EmptyString true false (JStr EmptyString)
                    false) []
  = (Normal
       (ProjectPage.mk "   " "a robot arm" EmptyString true false
                       (JStr "Project name is required") false),
     []).
Proof.
  apply (proj1 (project_forms_refuse_blank recorder
                  (ProjectPage.mk "   " "a robot arm" EmptyString true false
                                  (JStr EmptyString) false) [])).
  vm_compute. reflexivity.
Defined.

(** Up to the moment it has the response, the form of a project whose name
    is not blank has sent one request. *)
Lemma handleCreateProject_log
    {World : Type} (adapter : request -> World -> settled * World)
    (s : ProjectPage.state) (w : World) :
  all_white_space (ProjectPage.projectName s) = false ->
  exists s',
    handleCreateProject (logged adapter) s (w, [])
    = (Normal s',
       ((adapter
           (mkRequest POST "/create_project"
              (JObj [("name", JStr (ProjectPage.projectName s));
                     ("description", JStr (ProjectPage.projectDescription s))]))
           w).2,
        [mkRequest POST "/create_project"
           (JObj [("name", JStr (ProjectPage.projectName s));
                  ("description", JStr (ProjectPage.projectDescription s))])])).
Proof.
  intros Hname.
  assert (Htrim : trim (ProjectPage.projectName s) <> EmptyString).
  { intros Htrim. apply trim_blank in Htrim. congruence. }
  clear Hname. rename Htrim into Hname. apply String.eqb_neq in Hname.
  unfold handleCreateProject.
  cbn [ProjectPage.setError ProjectPage.projectName
       ProjectPage.projectDescription].
  rewrite Hname.
  unfold createProject, api_post. cbn [default_parameter].
  destruct (service_logged adapter
              (mkRequest POST "/create_project"
                 (JObj [("name", JStr (ProjectPage.projectName s));
                        ("description",
                         JStr (ProjectPage.projectDescription s))])) w [])
    as [v Hv].
  unfold try_catch, abind at 1. rewrite Hv. cbn [app].
  destruct v as [| | | | | |fields]; cbn; try (eexists; reflexivity).
  destruct (truthy (field "success" fields)); cbn; eexists; reflexivity.
Qed.

(** X28: a project name of ASCII characters that is not blank is sent as it
    was typed, the white space at its ends included: [handleCreateProject]
    sends one request to [/create_project], a [POST] with the name and the
    description of the form. *)
Theorem handleCreateProject_sends_name_as_typed
    {World : Type} (adapter : request -> World -> settled * World)
    (s : ProjectPage.state) (w : World) :
  is_ascii_text (ProjectPage.projectName s) = true ->
  all_white_space (ProjectPage.projectName s) = false ->
  to_url "/create_project"
         (handleCreateProject (logged adapter) s (w, [])).2.2
  = [mkRequest POST "/create_project"
       (JObj [("name", JStr (ProjectPage.projectName s));
              ("description", JStr (ProjectPage.projectDescription s))])].
Proof.
  intros _ Hname.
  destruct (handleCreateProject_log adapter s w Hname) as [s' ->].
  reflexivity.
Qed.

Lemma handleCreateProject_sends_name_as_typed_witness :
  to_url "/create_project"
         (handleCreateProject (logged recorder)
            (ProjectPage.mk "  Robot Arm " "a robot arm" EmptyString true false
                            (JStr EmptyString) false) ([], [])).2.2
  = [mkRequest POST "/create_project"
       (JObj [("name", JStr "  Robot Arm ");
              ("description", JStr "a robot arm")])].
Proof.
  apply (handleCreateProject_sends_name_as_typed recorder
           (ProjectPage.mk "  Robot Arm " "a robot arm" EmptyString true false
                           (JStr EmptyString) false) []).
  - vm_compute. reflexivity.
  - vm_compute. reflexivity.
Defined.

(** ** The inventory form, just opened *)

(** X29: a form that has just been opened cannot be submitted.  [openForm]
    empties the project and the quantity, so the submit handler of either
    mode refuses with 'Please select a project and enter quantity' and sends
    no request. *)
Theorem fresh_form_is_refused
    {World : Type} (adapter : request -> World -> settled * World)
    (hardware : HardwareSet.t) (isCheckout : bool) (p : Page.state) (w : World) :
  onSubmit adapter (openForm hardware isCheckout p) w
  = (Normal (Page.mk (Some hardware) EmptyString EmptyString
                     (JStr "Please select a project and enter quantity")
                     (Page.loading p)),
     w).
Proof. destruct isCheckout; reflexivity. Qed.
